(** * Esri font character catalog: a shallow embedding of
      [Esri-Font-Catalog-Maker.py] and the properties of its grid layout,
      cell labels, pagination and font discovery.

    Conventions of the embedding.
    - Python [int] is [Z]; [//] and [%] with the positive divisor [cols]
      are [Z.div] and [Z.modulo] (both round towards minus infinity).
    - Python [str] is [string] holding the UTF-8 encoding of the text.  Every
      string whose length or slices the script inspects (the key labels) is
      pure ASCII, where bytes and characters coincide.
    - Lengths on the page are written as the script writes them, as products
      of decimal literals with [inch]; the embedding evaluates them in exact
      rational arithmetic ([Q]), the script in binary floating point.
    - The drawing backend, the font registry, the clock and the file system
      are collaborators outside the script: they appear as an explicit
      interface ([Backend]) and as explicit state ([world]). *)

From Stdlib Require Import ZArith QArith List String Ascii Bool Lia Lqa.
From Stdlib Require Import Sorting.Sorted Sorting.Permutation.
Import ListNotations.

Local Open Scope string_scope.
Local Open Scope Z_scope.

(** ** Backend requests, exceptions and results *)

(** Requests to the drawing backend, in the vocabulary of the canvas object
    the script drives.  [NewCanvas] stands for the constructor call
    [canvas.Canvas(output_pdf, pagesize=...)]. *)
Inductive op : Type :=
| NewCanvas (filename : string) (pagesize : Q * Q)
| SetFont (psfontname : string) (size : Z)
| SetStrokeColorRGB (r g b : Q)
| SetFillColorRGB (r g b : Q)
| Rect (x y width height : Q)
| DrawString (x y : Q) (text : string)
| DrawCentredString (x y : Q) (text : string)
| Line (x1 y1 x2 y2 : Q)
| ShowPage
| Save.


Inductive exn : Type :=
| ValueError (arg : Z)                 (* chr() arg not in range(0x110000) *)
| BackendError (request : op)          (* a canvas call raised *)
| TTFError (font_id font_path : string) (* TTFont / registerFont raised *)
| KeyError (key : string)              (* dict subscript on a missing key *)
| OSError (path : string).             (* os.makedirs raised *)

Inductive result (A : Type) : Type :=
| Ok (a : A)
| Raise (e : exn).
Arguments Ok {A} a.
Arguments Raise {A} e.

(** ** Python text primitives *)

Module Py.

(** One digit of [str(int)] and of the [X] presentation type. *)
Definition digit_char (d : Z) : ascii :=
  if d <? 10 then ascii_of_N (Z.to_N (48 + d)) else ascii_of_N (Z.to_N (55 + d)).

(** Digits of a non-negative integer, most significant first.  The fuel is
    one more than the binary logarithm, which bounds the digit count in any
    base from 2 on. *)
Fixpoint digits_fuel (fuel : nat) (base n : Z) (acc : string) : string :=
  match fuel with
  | O => acc
  | S fuel' =>
      let acc' := String (digit_char (n mod base)) acc in
      if n / base =? 0 then acc' else digits_fuel fuel' base (n / base) acc'
  end.

Definition digits (base n : Z) : string :=
  digits_fuel (S (Z.to_nat (Z.log2 n))) base n "".

Fixpoint zeros (k : nat) : string :=
  match k with
  | O => ""
  | S k' => String "0" (zeros k')
  end.

(** [str(n)], also what [f"{n}"] produces. *)
Definition str (n : Z) : string :=
  if n <? 0 then String "-" (digits 10 (- n)) else digits 10 n.

(** [format(n, "0<width>X")]: uppercase hexadecimal, zero filled up to
    [width] characters, the sign (if any) counted in the width and placed
    before the zeros. *)
Definition format_0X (width : nat) (n : Z) : string :=
  let body := digits 16 (Z.abs n) in
  if n <? 0
  then String "-" (zeros (width - 1 - length body) ++ body)
  else zeros (width - length body) ++ body.

(** UTF-8 encoding of one code point. *)
Definition byte (z : Z) : ascii := ascii_of_N (Z.to_N z).

Definition utf8 (c : Z) : string :=
  if c <? 128 then String (byte c) ""
  else if c <? 2048 then
    String (byte (Z.lor 192 (Z.shiftr c 6)))
      (String (byte (Z.lor 128 (Z.land c 63))) "")
  else if c <? 65536 then
    String (byte (Z.lor 224 (Z.shiftr c 12)))
      (String (byte (Z.lor 128 (Z.land (Z.shiftr c 6) 63)))
         (String (byte (Z.lor 128 (Z.land c 63))) ""))
  else
    String (byte (Z.lor 240 (Z.shiftr c 18)))
      (String (byte (Z.lor 128 (Z.land (Z.shiftr c 12) 63)))
         (String (byte (Z.lor 128 (Z.land (Z.shiftr c 6) 63)))
            (String (byte (Z.lor 128 (Z.land c 63))) ""))).

(** [chr(code)]: raises [ValueError] outside [range(0x110000)]. *)
Definition chr (code : Z) : result string :=
  if (0 <=? code) && (code <? 1114112) then Ok (utf8 code)
  else Raise (ValueError code).

(** [s[:k]] *)
Definition slice_to (k : nat) (s : string) : string := substring 0 k s.

(** [range(a, b)] as the list it iterates over. *)
Definition range (a b : Z) : list Z :=
  map (fun i => a + Z.of_nat i) (seq 0 (Z.to_nat (b - a))).

(** [str.lower()] on the ASCII letters.  Outside ASCII it leaves the bytes
    alone, where Python may change them; no character outside ASCII
    lower-cases to a dot or to one of the letters t, f, o, so the test
    [endswith(('.ttf', '.otf'))] on the result is the same. *)
Definition lower_ascii (c : ascii) : ascii :=
  let n := N_of_ascii c in
  if ((65 <=? n) && (n <=? 90))%N then ascii_of_N (n + 32) else c.

Fixpoint lower (s : string) : string :=
  match s with
  | "" => ""
  | String c s' => String (lower_ascii c) (lower s')
  end.

(** [s.endswith(suffix)] *)
Definition endswith (s suffix : string) : bool :=
  let n := length s in
  let m := length suffix in
  (m <=? n)%nat && String.eqb (substring (n - m) m s) suffix.

(** [s.replace(old, new)] for a one-character [old] and [new]. *)
Fixpoint replace_char (old new : ascii) (s : string) : string :=
  match s with
  | "" => ""
  | String c s' =>
      String (if Ascii.eqb c old then new else c) (replace_char old new s')
  end.

End Py.


(** ** Page geometry and the script's constants *)

Local Open Scope Q_scope.

Definition inch : Q := 72.0.
Definition letter : Q * Q := (8.5 * inch, 11 * inch).

Definition landscape (pagesize : Q * Q) : Q * Q :=
  let (a, b) := pagesize in
  if negb (Qle_bool b a) then (b, a) else (a, b).

Definition output_pdf : string := "C:\Temp\ESRI_Font_Character_Catalog.pdf".
Definition output_dir : string := "C:\Temp".

Definition page_width : Q := fst (landscape letter).
Definition page_height : Q := snd (landscape letter).

Definition margin : Q := 0.3 * inch.
Definition cell_size : Q := 0.50 * inch.
Definition font_size_char : Z := 20.
Definition font_size_label : Z := 6.
Definition cols : Z := 16.
Definition rows : Z := 14.

Definition y_start : Q := page_height - 0.9 * inch.
Definition x_start : Q := margin.

Local Close Scope Q_scope.

(** The literal dict of [draw_character_grid], in source order. *)
Definition special_chars : list (Z * string) :=
  [ (32, "Space"); (33, "!"); (34, String (Ascii.ascii_of_nat 34) "");
    (35, "#"); (36, "$"); (37, "%"); (38, "&"); (39, "'");
    (40, "("); (41, ")"); (42, "*"); (43, "+"); (44, ","); (45, "-");
    (46, "."); (47, "/");
    (58, ":"); (59, ";"); (60, "<"); (61, "="); (62, ">"); (63, "?");
    (64, "@");
    (91, "["); (92, "\"); (93, "]"); (94, "^"); (95, "_"); (96, "`");
    (123, "{"); (124, "|"); (125, "}"); (126, "~"); (127, "DEL") ].

Fixpoint lookup_code (code : Z) (d : list (Z * string)) : option string :=
  match d with
  | [] => None
  | (k, v) :: d' => if code =? k then Some v else lookup_code code d'
  end.

(** The key label of a basic-range cell, before truncation: the [if]/[elif]
    chain of [draw_character_grid]. *)
Definition key_label (code : Z) : result string :=
  match lookup_code code special_chars with
  | Some name => Ok name
  | None =>
      if (48 <=? code) && (code <=? 57) then Py.chr code
      else if (65 <=? code) && (code <=? 90) then Py.chr code
      else if (97 <=? code) && (code <=? 122) then Py.chr code
      else if code <? 127 then Py.chr code
      else Ok ("U+" ++ Py.format_0X 4 code)
  end.

(** "Truncate long key names". *)
Definition truncate_label (key_label : string) : string :=
  if (6 <? length key_label)%nat
  then Py.slice_to 5 key_label ++ "."
  else key_label.

(** The label of an extended-range cell. *)
Definition unicode_label (code : Z) : string := "U+" ++ Py.format_0X 4 code.

Definition decimal_line (code : Z) : string := Py.str code.
Definition hex_line (code : Z) : string := "x" ++ Py.format_0X 2 code.

(** ** The script's collaborators *)

(** What the script cannot decide by itself.  A canvas request either is
    carried out or raises; which of the two may depend on every request made
    before it. *)
Class Backend : Type := {
  (** the canvas carries out [request] after the requests [history] *)
  accepts : forall (history : list op) (request : op), bool;
  (** [pdfmetrics.registerFont(TTFont(font_id, font_path))] succeeds *)
  ttfont_loads : forall (font_id font_path : string), bool;
  (** [datetime.now().strftime('%Y-%m-%d %H:%M')] at the n-th reading *)
  now : forall (reading : nat), string;
  (** [str(e)] *)
  message : forall (e : exn), string
}.

(** The mutable state the script works on: the requests sent to the canvas
    so far (oldest first), the number of clock readings, the names in the
    font registry, the console lines about fonts (newest last; the banners,
    the progress lines of the scan and the final summary are left out), and
    the module-level variable [page_count]. *)
Record world : Type := {
  calls : list op;
  clock_reads : nat;
  registered : list string;
  console : list string;
  page_count : Z
}.

(** ** Statements as state transformers that may raise *)

Definition M (A : Type) : Type := world -> world * result A.

Definition ret {A : Type} (a : A) : M A := fun w => (w, Ok a).

Definition bind {A B : Type} (m : M A) (k : A -> M B) : M B :=
  fun w =>
    match m w with
    | (w', Ok a) => k a w'
    | (w', Raise e) => (w', Raise e)
    end.

Definition lift {A : Type} (r : result A) : M A := fun w => (w, r).

(** [try: body / except: handler]: the effects of the interrupted body stay. *)
Definition try_except {A : Type} (body : M A) (handler : exn -> M A) : M A :=
  fun w =>
    match body w with
    | (w', Ok a) => (w', Ok a)
    | (w', Raise e) => handler e w'
    end.

Declare Scope stmt_scope.
Delimit Scope stmt_scope with stmt.
Notation "x <- m ;; k" := (bind m (fun x => k))
  (at level 61, m at next level, right associativity) : stmt_scope.
Notation "m ;; k" := (bind m (fun _ => k))
  (at level 61, right associativity) : stmt_scope.

(** Result of one pass through a loop body. *)
Inductive flow (A : Type) : Type :=
| Next (a : A)
| Break (a : A).
Arguments Next {A} a.
Arguments Break {A} a.

(** [for code in codes: body], with the loop-carried local in [a]. *)
Fixpoint for_each {A : Type} (codes : list Z) (body : Z -> A -> M (flow A))
  (a : A) : M A :=
  match codes with
  | [] => ret a
  | code :: rest =>
      bind (body code a) (fun f =>
        match f with
        | Next a' => for_each rest body a'
        | Break a' => ret a'
        end)
  end.

Section Script.

Context {backend : Backend}.

Local Open Scope stmt_scope.

(** A request to the canvas: recorded, then carried out or raised. *)
Definition call (request : op) : M unit :=
  fun w =>
    ({| calls := (calls w ++ [request])%list;
        clock_reads := clock_reads w;
        registered := registered w;
        console := console w;
        page_count := page_count w |},
     if accepts (calls w) request then Ok tt
     else Raise (BackendError request)).

Definition print (line : string) : M unit :=
  fun w =>
    ({| calls := calls w;
        clock_reads := clock_reads w;
        registered := registered w;
        console := (console w ++ [line])%list;
        page_count := page_count w |}, Ok tt).

Definition datetime_now : M string :=
  fun w =>
    ({| calls := calls w;
        clock_reads := S (clock_reads w);
        registered := registered w;
        console := console w;
        page_count := page_count w |}, Ok (now (clock_reads w))).

Definition getRegisteredFontNames : M (list string) :=
  fun w => (w, Ok (registered w)).

Definition registerFont (font_id font_path : string) : M unit :=
  fun w =>
    if ttfont_loads font_id font_path
    then ({| calls := calls w;
             clock_reads := clock_reads w;
             registered := (registered w ++ [font_id])%list;
             console := console w;
             page_count := page_count w |}, Ok tt)
    else (w, Raise (TTFError font_id font_path)).

Definition get_page_count : M Z := fun w => (w, Ok (page_count w)).

(** [page_count += 1] *)
Definition incr_page_count : M unit :=
  fun w =>
    ({| calls := calls w;
        clock_reads := clock_reads w;
        registered := registered w;
        console := console w;
        page_count := page_count w + 1 |}, Ok tt).

Definition draw_page_header (font_name : string) (page_num total_pages : Z)
  : M unit :=
  call (SetFont "Helvetica-Bold" 14) ;;
  call (DrawString margin (page_height - 0.3 * inch)%Q ("Font: " ++ font_name)) ;;
  call (SetFont "Helvetica" 8) ;;
  call (DrawString (page_width - 2 * inch)%Q (page_height - 0.3 * inch)%Q
          ("Page " ++ Py.str page_num ++ " of " ++ Py.str total_pages)) ;;
  stamp <- datetime_now ;;
  call (DrawString margin (page_height - 0.5 * inch)%Q ("Generated: " ++ stamp)) ;;
  call (Line margin (page_height - 0.6 * inch)%Q
          (page_width - margin)%Q (page_height - 0.6 * inch)%Q).

(** Top-left corner of the cell of [code] in a grid starting at
    [start_code]: the [x] and [y] of both grid functions. *)
Definition cell_row (start_code code : Z) : Z := (code - start_code) / cols.
Definition cell_col (start_code code : Z) : Z := (code - start_code) mod cols.
Definition cell_x (col : Z) : Q := (x_start + inject_Z col * cell_size)%Q.
Definition cell_y (row : Z) : Q := (y_start - inject_Z row * cell_size)%Q.

(** The [try]/[except] at the bottom of a cell, shared verbatim by the two
    grid functions; the value is the new [char_count]. *)
Definition draw_glyph (font_id : string) (code : Z) (x y : Q) (char_count : Z)
  : M Z :=
  try_except
    (call (SetFont font_id font_size_char) ;;
     call (SetFillColorRGB 0 0 0) ;;
     char <- lift (Py.chr code) ;;
     call (DrawCentredString (x + cell_size / 2)%Q
             (y - cell_size + 0.15 * inch)%Q char) ;;
     ret (char_count + 1))
    (fun _ =>
     call (SetFont "Helvetica" 8) ;;
     call (SetFillColorRGB 0.8 0.8 0.8) ;;
     call (DrawCentredString (x + cell_size / 2)%Q
             (y - cell_size + 0.15 * inch)%Q "—") ;;
     ret char_count).

(** Body of the loop of [draw_character_grid]. *)
Definition character_cell (font_id : string) (start_code code char_count : Z)
  : M (flow Z) :=
  let row := cell_row start_code code in
  let col := cell_col start_code code in
  if rows <=? row then ret (Break char_count)
  else
    let x := cell_x col in
    let y := cell_y row in
    call (SetStrokeColorRGB 0.8 0.8 0.8) ;;
    call (Rect x (y - cell_size)%Q cell_size cell_size) ;;
    key_label <- lift (key_label code) ;;
    call (SetFont "Helvetica-Bold" font_size_label) ;;
    call (SetFillColorRGB 0.2 0.2 0.2) ;;
    call (DrawString (x + 0.03 * inch)%Q (y - 0.12 * inch)%Q
            (truncate_label key_label)) ;;
    call (SetFont "Helvetica" 6) ;;
    call (SetFillColorRGB 0.5 0.5 0.5) ;;
    call (DrawString (x + 0.03 * inch)%Q (y - 0.20 * inch)%Q
            (decimal_line code)) ;;
    call (DrawString (x + 0.03 * inch)%Q (y - 0.27 * inch)%Q (hex_line code)) ;;
    char_count' <- draw_glyph font_id code x y char_count ;;
    call (SetFillColorRGB 0 0 0) ;;
    ret (Next char_count').

Definition draw_character_grid (font_id font_name : string)
  (start_code end_code : Z) : M Z :=
  for_each
    (Py.range start_code (Z.min (end_code + 1) (start_code + rows * cols)))
    (character_cell font_id start_code) 0.

(** Body of the loop of [draw_extended_grid]. *)
Definition extended_cell (font_id : string) (start_code code char_count : Z)
  : M (flow Z) :=
  let row := cell_row start_code code in
  let col := cell_col start_code code in
  if rows <=? row then ret (Break char_count)
  else
    let x := cell_x col in
    let y := cell_y row in
    call (SetStrokeColorRGB 0.8 0.8 0.8) ;;
    call (Rect x (y - cell_size)%Q cell_size cell_size) ;;
    call (SetFont "Helvetica-Bold" font_size_label) ;;
    call (SetFillColorRGB 0.2 0.2 0.2) ;;
    call (DrawString (x + 0.03 * inch)%Q (y - 0.12 * inch)%Q
            (unicode_label code)) ;;
    call (SetFont "Helvetica" 6) ;;
    call (SetFillColorRGB 0.5 0.5 0.5) ;;
    call (DrawString (x + 0.03 * inch)%Q (y - 0.20 * inch)%Q
            (decimal_line code)) ;;
    char_count' <- draw_glyph font_id code x y char_count ;;
    call (SetFillColorRGB 0 0 0) ;;
    ret (Next char_count').

Definition draw_extended_grid (font_id font_name : string)
  (start_code end_code : Z) : M Z :=
  for_each
    (Py.range start_code (Z.min (end_code + 1) (start_code + rows * cols)))
    (extended_cell font_id start_code) 0.

End Script.

(** ** Font discovery *)

(** A Python [dict] from [str] to [str]: insertion ordered, one entry per
    key. *)
Module Dict.

Definition t : Type := list (string * string).

Fixpoint get (key : string) (d : t) : option string :=
  match d with
  | [] => None
  | (k, v) :: d' => if String.eqb key k then Some v else get key d'
  end.

(** [key in d] *)
Definition mem (key : string) (d : t) : bool :=
  match get key d with Some _ => true | None => false end.

(** [d[key] = value] *)
Fixpoint set (key value : string) (d : t) : t :=
  match d with
  | [] => [(key, value)]
  | (k, v) :: d' =>
      if String.eqb key k then (k, value) :: d' else (k, v) :: set key value d'
  end.

(** [d.keys()] *)
Definition keys (d : t) : list string := map fst d.

(** [d[key]] as an expression *)
Definition subscript (key : string) (d : t) : result string :=
  match get key d with
  | Some v => Ok v
  | None => Raise (KeyError key)
  end.

End Dict.

(** [sorted(names)]: ascending in the order of [str], which compares
    code point by code point; on UTF-8 text this is the byte order of
    [String.leb]. *)
Fixpoint insert_sorted (name : string) (names : list string) : list string :=
  match names with
  | [] => [name]
  | n :: names' =>
      if String.leb name n then name :: names
      else n :: insert_sorted name names'
  end.

Fixpoint sorted (names : list string) : list string :=
  match names with
  | [] => []
  | n :: names' => insert_sorted n (sorted names')
  end.

(** What a path names on the machine.  [DirLink] is a symbolic link to a
    directory met while listing one: [os.walk] reports it among the
    directory names and does not descend into it. *)
#[warnings="-register-all"]
Inductive node : Type :=
| File
| Dir (entries : list (string * node))
| DirLink.

(** The machine the script runs on. *)
Class Host : Type := {
  (** [__import__(package_name)] succeeds *)
  importable : forall (package_name : string), bool;
  (** [pip install pip_name] returns status 0 *)
  pip_installs : forall (pip_name : string), bool;
  (** [os.environ.get('PROGRAMFILES')] *)
  environ_PROGRAMFILES : option string;
  (** what a path names, [None] when [os.path.exists] is false *)
  stat : forall (path : string), option node;
  (** [os.path.join] of two components *)
  path_join : forall (a b : string), string;
  (** [os.makedirs(path)] succeeds *)
  makedirs_ok : forall (path : string), bool;
  (** font names registered when the interpreter starts *)
  registered_at_start : list string
}.

Definition is_dot (c : ascii) : bool := Ascii.eqb c ".".

Fixpoint all_dots (s : string) : bool :=
  match s with
  | "" => true
  | String c s' => is_dot c && all_dots s'
  end.

(** [s.rfind('.')] *)
Fixpoint rfind_dot (s : string) : option nat :=
  match s with
  | "" => None
  | String c s' =>
      match rfind_dot s' with
      | Some i => Some (S i)
      | None => if is_dot c then Some O else None
      end
  end.

(** [os.path.splitext] on a single path component (no separator in it, as
    for the file names [os.walk] yields): the extension starts at the last
    dot, unless nothing but dots comes before that dot. *)
Definition splitext (p : string) : string * string :=
  match rfind_dot p with
  | Some dotIndex =>
      if all_dots (substring 0 dotIndex p) then (p, "")
      else (substring 0 dotIndex p, substring dotIndex (length p - dotIndex) p)
  | None => (p, "")
  end.

(** [file.lower().endswith(('.ttf', '.otf'))] *)
Definition is_font_file (file : string) : bool :=
  Py.endswith (Py.lower file) ".ttf" || Py.endswith (Py.lower file) ".otf".

Definition dirnames (entries : list (string * node)) : list string :=
  map fst (filter (fun e => match snd e with File => false | _ => true end)
             entries).

Definition filenames (entries : list (string * node)) : list string :=
  map fst (filter (fun e => match snd e with File => true | _ => false end)
             entries).

Section Locator.

Context {host : Host}.

(** [os.walk(top)], top-down, as the list of the triples it yields. *)
Fixpoint walk (top : string) (n : node)
  : list (string * list string * list string) :=
  match n with
  | Dir entries =>
      (top, dirnames entries, filenames entries) ::
      (fix walk_entries (es : list (string * node)) :=
         match es with
         | [] => []
         | (name, child) :: es' =>
             (walk (path_join top name) child ++ walk_entries es')%list
         end) entries
  | File | DirLink => []
  end.

Definition arcgis_font_dirs : list string :=
  [ "C:\Program Files\ArcGIS\Pro\Resources\Fonts";
    "C:\Program Files (x86)\ArcGIS\Desktop10.8\Fonts";
    path_join
      (path_join
         (path_join
            (path_join
               (match environ_PROGRAMFILES with
                | Some v => v
                | None => "C:\Program Files"
                end) "ArcGIS") "Pro") "Resources") "Fonts" ].

(** Innermost loop body: one file name of one walked directory. *)
Definition scan_file (root : string) (font_dict : Dict.t) (file : string)
  : Dict.t :=
  if is_font_file file then
    let font_path := path_join root file in
    let font_name := fst (splitext file) in
    if negb (Dict.mem font_name font_dict)
    then Dict.set font_name font_path font_dict
    else font_dict
  else font_dict.

Definition scan_walk (font_dict : Dict.t)
  (walked : list (string * list string * list string)) : Dict.t :=
  fold_left
    (fun d triple =>
       match triple with
       | (root, _, files) => fold_left (scan_file root) files d
       end) walked font_dict.

(** The loop over [arcgis_font_dirs]; the state is [(font_dict, fonts_found)]. *)
Definition scan_dirs (font_dirs : list string) : Dict.t * bool :=
  fold_left
    (fun state font_dir =>
       match stat font_dir with
       | Some n => (scan_walk (fst state) (walk font_dir n), true)
       | None => state
       end) font_dirs ([], false).

Definition fonts_of (font_dict : Dict.t) : list string :=
  sorted (Dict.keys font_dict).

End Locator.

(** ** The program *)

Section Program.

Context {backend : Backend} {host : Host}.

Local Open Scope stmt_scope.

Definition required_packages : list (string * string) :=
  [("reportlab", "reportlab")].

Definition check_and_install_package (package_name pip_name : string) : bool :=
  if importable package_name then true else pip_installs pip_name.

(** The loop over [required_packages]: every package is tried. *)
Definition all_installed : bool :=
  fold_left
    (fun ok package =>
       if negb (check_and_install_package (fst package) (snd package))
       then false else ok)
    required_packages true.

Definition makedirs (path : string) : M unit :=
  fun w => (w, if makedirs_ok path then Ok tt else Raise (OSError path)).

Definition set_page_count (n : Z) : M unit :=
  fun w =>
    ({| calls := calls w;
        clock_reads := clock_reads w;
        registered := registered w;
        console := console w;
        page_count := n |}, Ok tt).

Definition font_id_of (font_name : string) : string :=
  Py.replace_char "." "_"
    (Py.replace_char "-" "_" (Py.replace_char " " "_" font_name)).

Definition legend_basic : string :=
  "Each cell shows: Key name (top), Decimal code, Hex code, Symbol (center)".

Definition legend_extended : string :=
  "Extended Unicode (256-511) - Each cell shows: Unicode ID (top), Decimal code, Symbol (center)".

(** The [try] block of the font loop. *)
Definition render_font (total_fonts font_idx : Z) (font_name font_path : string)
  : M unit :=
  let font_id := font_id_of font_name in
  names <- getRegisteredFontNames ;;
  (if negb (existsb (String.eqb font_id) names)
   then registerFont font_id font_path else ret tt) ;;
  print ("Processing " ++ Py.str (font_idx + 1) ++ "/" ++ Py.str total_fonts
         ++ ": " ++ font_name) ;;
  (* Page 1: ASCII range (32-255) *)
  incr_page_count ;;
  n <- get_page_count ;;
  (if 1 <? n then call ShowPage else ret tt) ;;
  n <- get_page_count ;;
  draw_page_header font_name n (total_fonts * 2) ;;
  call (SetFont "Helvetica" 9) ;;
  call (DrawString margin (page_height - 0.75 * inch)%Q legend_basic) ;;
  _ <- draw_character_grid font_id font_name 32 255 ;;
  (* Page 2: Extended Unicode range (256-511) *)
  incr_page_count ;;
  call ShowPage ;;
  n <- get_page_count ;;
  draw_page_header font_name n (total_fonts * 2) ;;
  call (SetFont "Helvetica" 9) ;;
  call (DrawString margin (page_height - 0.75 * inch)%Q legend_extended) ;;
  _ <- draw_extended_grid font_id font_name 256 511 ;;
  ret tt.

(** One pass through the font loop: [try] / [except Exception as e]. *)
Definition process_font (font_dict : Dict.t) (total_fonts font_idx : Z)
  (font_name : string) : M unit :=
  font_path <- lift (Dict.subscript font_name font_dict) ;;
  try_except
    (render_font total_fonts font_idx font_name font_path)
    (fun e =>
       print ("  ERROR processing " ++ font_name ++ ": " ++ message e)).

(** [for font_idx, font_name in enumerate(fonts)], from index [font_idx]. *)
Fixpoint fonts_loop (font_dict : Dict.t) (total_fonts font_idx : Z)
  (fonts : list string) : M unit :=
  match fonts with
  | [] => ret tt
  | font_name :: rest =>
      process_font font_dict total_fonts font_idx font_name ;;
      fonts_loop font_dict total_fonts (font_idx + 1) rest
  end.

(** The script from "GENERATING CHARACTER CATALOG" to its last line; the
    value is the exit status. *)
Definition generate (font_dict : Dict.t) (fonts : list string) (total_fonts : Z)
  : M Z :=
  call (NewCanvas output_pdf (landscape letter)) ;;
  set_page_count 0 ;;
  fonts_loop font_dict total_fonts 0 fonts ;;
  call Save ;;
  ret 0.

(** The whole script; [ret 1] stands for [sys.exit(1)]. *)
Definition main : M Z :=
  if negb all_installed then ret 1
  else
    (if negb (match stat output_dir with Some _ => true | None => false end)
     then makedirs output_dir else ret tt) ;;
    let font_dict := fst (scan_dirs arcgis_font_dirs) in
    let fonts := fonts_of font_dict in
    let total_fonts := Z.of_nat (List.length fonts) in
    if total_fonts =? 0 then
      print "ERROR: No fonts found. Exiting." ;;
      ret 1
    else generate font_dict fonts total_fonts.

Definition initial_world : world :=
  {| calls := [];
     clock_reads := 0;
     registered := registered_at_start;
     console := [];
     page_count := 0 |}.

(** Exit status of the interpreter: an uncaught exception ends it with 1. *)
Definition exit_status (r : result Z) : Z :=
  match r with
  | Ok code => code
  | Raise _ => 1
  end.

End Program.

(** ** Reading the drawn text back (specification side) *)

(** Value of one decimal digit or uppercase hexadecimal digit. *)
Definition digit_value (c : ascii) : option Z :=
  let n := Z.of_N (N_of_ascii c) in
  if (48 <=? n) && (n <=? 57) then Some (n - 48)
  else if (65 <=? n) && (n <=? 70) then Some (n - 55)
  else None.

(** Value of a numeral read from the left in [base], continuing from [acc];
    [None] when a character is not a digit of the base. *)
Fixpoint value_from (base acc : Z) (s : string) : option Z :=
  match s with
  | "" => Some acc
  | String c s' =>
      match digit_value c with
      | Some d => if d <? base then value_from base (acc * base + d) s' else None
      | None => None
      end
  end.

Definition numeral_value (base : Z) (s : string) : option Z :=
  match s with
  | "" => None
  | _ => value_from base 0 s
  end.

(** [h] is [code] written with exactly [width] digits, each decimal or an
    uppercase letter from A to F. *)
Definition hex_numeral (width : nat) (code : Z) (h : string) : Prop :=
  length h = width /\ numeral_value 16 h = Some code.

Definition is_digit_or_letter (code : Z) : bool :=
  (48 <=? code) && (code <=? 57) || (65 <=? code) && (code <=? 90)
  || (97 <=? code) && (code <=? 122).

(** The one-character text of an ASCII code. *)
Definition char_of (code : Z) : string := String (ascii_of_N (Z.to_N code)) "".

(** The key label as the specification words it: the table entry when there
    is one, the character itself for digits and letters, the raw character
    for other codes below 127, and U+XXXX from 127 on. *)
Definition label_as_specified (code : Z) (label : string) : Prop :=
  match lookup_code code special_chars with
  | Some name => label = name
  | None =>
      if is_digit_or_letter code then label = char_of code
      else if code <? 127 then label = char_of code
      else exists h, label = "U+" ++ h /\ hex_numeral 4 code h
  end.

(** The codes a grid call iterates over. *)
Definition grid_codes (start_code end_code : Z) : list Z :=
  Py.range start_code (Z.min (end_code + 1) (start_code + rows * cols)).

(** ** Reading the request log (specification side) *)

Definition is_rect (o : op) : bool :=
  match o with Rect _ _ _ _ => true | _ => false end.

(** Cells rendered: one border rectangle is requested per cell. *)
Definition cells_drawn (requests : list op) : nat :=
  List.length (filter is_rect requests).

(** A request that belongs to the cell of [code] whose top-left corner is
    [(x, y)]: whatever it positions, it positions relative to that corner;
    a text it draws is a line of that code (the label of either page, the
    decimal line, the hex line) or the glyph of that code or the dash; and
    it is none of the page-level requests. *)
Definition in_cell (code : Z) (x y : Q) (o : op) : Prop :=
  match o with
  | Rect x' y' w h =>
      x' = x /\ y' = (y - cell_size)%Q /\ w = cell_size /\ h = cell_size
  | DrawString x' y' text =>
      x' = (x + 0.03 * inch)%Q /\
      ((y' = (y - 0.12 * inch)%Q /\
        ((exists label,
             key_label code = Ok label /\ text = truncate_label label)
         \/ text = unicode_label code))
       \/ (y' = (y - 0.20 * inch)%Q /\ text = decimal_line code)
       \/ (y' = (y - 0.27 * inch)%Q /\ text = hex_line code))
  | DrawCentredString x' y' text =>
      x' = (x + cell_size / 2)%Q /\ y' = (y - cell_size + 0.15 * inch)%Q /\
      (Py.chr code = Ok text \/ text = "—")
  | SetFont _ _ | SetStrokeColorRGB _ _ _ | SetFillColorRGB _ _ _ => True
  | NewCanvas _ _ | Line _ _ _ _ | ShowPage | Save => False
  end.

(** The three requests that draw the real glyph, and the three that draw the
    placeholder dash in grey. *)
Definition glyph_requests (font_id : string) (x y : Q) (char : string)
  : list op :=
  [ SetFont font_id font_size_char;
    SetFillColorRGB 0 0 0;
    DrawCentredString (x + cell_size / 2)%Q (y - cell_size + 0.15 * inch)%Q
      char ].

Definition placeholder_requests (x y : Q) : list op :=
  [ SetFont "Helvetica" 8;
    SetFillColorRGB 0.8 0.8 0.8;
    DrawCentredString (x + cell_size / 2)%Q (y - cell_size + 0.15 * inch)%Q
      "—" ].

(** Requests the script makes outside the [try] of a cell: everything but
    selecting a font at the glyph size and drawing a centred text other
    than the dash. *)
Definition standard_request (o : op) : bool :=
  match o with
  | SetFont _ size => negb (size =? font_size_char)
  | DrawCentredString _ _ text => String.eqb text "—"
  | _ => true
  end.

Definition is_black (r g b : Q) : bool :=
  Qeq_bool r 0 && Qeq_bool g 0 && Qeq_bool b 0.

Section Log.

Context {backend : Backend}.

(** The fill colour in force is black after [requests], given whether it
    was before: only a fill request that is carried out changes it. *)
Fixpoint fill_after (black : bool) (history requests : list op) : bool :=
  match requests with
  | [] => black
  | o :: rest =>
      fill_after
        (match o with
         | SetFillColorRGB r g b =>
             if accepts history o then is_black r g b else black
         | _ => black
         end) (history ++ [o])%list rest
  end.

(** Number of centred texts carried out while the fill colour is black:
    the real glyphs, the placeholder being drawn in grey. *)
Fixpoint black_glyphs (black : bool) (history requests : list op) : Z :=
  match requests with
  | [] => 0
  | o :: rest =>
      match o with
      | SetFillColorRGB r g b =>
          black_glyphs (if accepts history o then is_black r g b else black)
            (history ++ [o])%list rest
      | DrawCentredString _ _ _ =>
          (if accepts history o && black then 1 else 0)
          + black_glyphs black (history ++ [o])%list rest
      | _ => black_glyphs black (history ++ [o])%list rest
      end
  end.


End Log.

(** What a statement leaves alone. *)
Definition frame (w' w : world) : Prop :=
  page_count w' = page_count w /\ console w' = console w /\
  registered w' = registered w /\ clock_reads w' = clock_reads w.


(** ** Pages in the request log (specification side) *)

Definition header_requests (font_name : string) (page_num total_pages : Z)
  (stamp : string) : list op :=
  [ SetFont "Helvetica-Bold" 14;
    DrawString margin (page_height - 0.3 * inch)%Q ("Font: " ++ font_name);
    SetFont "Helvetica" 8;
    DrawString (page_width - 2 * inch)%Q (page_height - 0.3 * inch)%Q
      ("Page " ++ Py.str page_num ++ " of " ++ Py.str total_pages);
    DrawString margin (page_height - 0.5 * inch)%Q ("Generated: " ++ stamp);
    Line margin (page_height - 0.6 * inch)%Q
      (page_width - margin)%Q (page_height - 0.6 * inch)%Q ].

(** A request that draws on the current page. *)
Definition within_page (o : op) : Prop :=
  match o with
  | NewCanvas _ _ | ShowPage | Save => False
  | _ => True
  end.

(** [body] is the header of page [page_num] of [total_pages] followed by
    more, or what was requested of that header before a request raised. *)
Definition starts_page (page_num total_pages : Z) (body : list op) : Prop :=
  exists font_name stamp,
    (exists rest,
       body = (header_requests font_name page_num total_pages stamp ++ rest)%list)
    \/ (exists k,
          body = firstn k (header_requests font_name page_num total_pages stamp)).

Definition is_page (page_num total_pages : Z) (body : list op) : Prop :=
  Forall within_page body /\ starts_page page_num total_pages body.

(** The requests of consecutive pages, the first of them being page
    [n + 1]: a page break goes before every page but page 1. *)
Fixpoint join_pages (n : Z) (bodies : list (list op)) : list op :=
  match bodies with
  | [] => []
  | body :: bodies' =>
      ((if 1 <? n + 1 then [ShowPage] else []) ++ body
       ++ join_pages (n + 1) bodies')%list
  end.

Fixpoint pages_from (n total_pages : Z) (bodies : list (list op)) : Prop :=
  match bodies with
  | [] => True
  | body :: bodies' =>
      is_page (n + 1) total_pages body /\ pages_from (n + 1) total_pages bodies'
  end.

(** From [w] to [w'] the requests are whole pages, counted by
    [page_count]. *)
Definition paged (total_pages : Z) (w : world) (requests : list op)
  (w' : world) : Prop :=
  exists bodies,
    requests = join_pages (page_count w) bodies /\
    page_count w' = page_count w + Z.of_nat (List.length bodies) /\
    pages_from (page_count w) total_pages bodies.

(** What drawing leaves alone. *)
Definition ledger (w' w : world) : Prop :=
  page_count w' = page_count w /\ console w' = console w /\
  registered w' = registered w.

(** ** Font discovery (specification side) *)

(** The font files of one [os.walk], in the order they are met, each with
    its derived name and its path. *)
Definition candidates_of_walk {host : Host}
  (walked : list (string * list string * list string))
  : list (string * string) :=
  flat_map
    (fun triple =>
       match triple with
       | (root, _, files) =>
           map (fun file => (fst (splitext file), path_join root file))
             (filter is_font_file files)
       end) walked.

(** The font files of all the directories that exist, in list order. *)
Definition candidates {host : Host} (font_dirs : list string)
  : list (string * string) :=
  flat_map
    (fun font_dir =>
       match stat font_dir with
       | Some n => candidates_of_walk (walk font_dir n)
       | None => []
       end) font_dirs.

(** [ext] is one of the two font extensions, in any letter case. *)
Definition font_extension (ext : string) : Prop :=
  Py.lower ext = ".ttf" \/ Py.lower ext = ".otf".

(** What the innermost loop body does with one candidate. *)
Definition add_candidate (font_dict : Dict.t) (c : string * string) : Dict.t :=
  if negb (Dict.mem (fst c) font_dict)
  then Dict.set (fst c) (snd c) font_dict
  else font_dict.

(** ** Collaborators for the examples *)

Definition blank_world : world :=
  {| calls := []; clock_reads := 0; registered := []; console := [];
     page_count := 0 |}.

(** A backend that carries out everything except page breaks. *)
Definition no_page_break : Backend :=
  {| accepts := fun _ o => match o with ShowPage => false | _ => true end;
     ttfont_loads := fun _ _ => true;
     now := fun _ => "2024-01-01 00:00";
     message := fun _ => "error" |}.

(** A backend that draws no glyph but the letter A. *)
Definition only_letter_A : Backend :=
  {| accepts := fun _ o =>
       match o with
       | DrawCentredString _ _ text =>
           String.eqb text "—" || String.eqb text "A"
       | _ => true
       end;
     ttfont_loads := fun _ _ => true;
     now := fun _ => "2024-01-01 00:00";
     message := fun _ => "error" |}.

(** A machine with the packages installed and no font directory. *)
Definition bare_host : Host :=
  {| importable := fun _ => true;
     pip_installs := fun _ => true;
     environ_PROGRAMFILES := None;
     stat := fun _ => None;
     path_join := fun a b => a ++ "\" ++ b;
     makedirs_ok := fun _ => true;
     registered_at_start := [] |}.

(** A machine whose only font directory holds one file, named [.ttf]. *)
Definition dot_file_host : Host :=
  {| importable := fun _ => true;
     pip_installs := fun _ => true;
     environ_PROGRAMFILES := None;
     stat := fun path =>
       if String.eqb path "fonts" then Some (Dir [(".ttf", File)]) else None;
     path_join := fun a b => a ++ "\" ++ b;
     makedirs_ok := fun _ => true;
     registered_at_start := [] |}.

(** A machine with two font directories: the first holds [Foo.ttf],
    [Foo.otf], a text file and a sub-directory with [Bar.TTF]; the second
    holds another [Bar.ttf] and [Abc.otf]. *)
Definition two_dirs_host : Host :=
  {| importable := fun _ => true;
     pip_installs := fun _ => true;
     environ_PROGRAMFILES := None;
     stat := fun path =>
       if String.eqb path "first" then
         Some (Dir [("Foo.ttf", File); ("Foo.otf", File); ("notes.txt", File);
                    ("sub", Dir [("Bar.TTF", File)])])
       else if String.eqb path "second" then
         Some (Dir [("Bar.ttf", File); ("Abc.otf", File)])
       else None;
     path_join := fun a b => a ++ "\" ++ b;
     makedirs_ok := fun _ => true;
     registered_at_start := [] |}.

(** ** Specifications of statements *)

(** [runs m w Q]: run from [w], the statement [m] appends some requests to
    the log, and [Q] holds of those requests, of the world it leaves and of
    its outcome. *)
Definition runs {A : Type} (m : M A) (w : world)
  (Q : list op -> world -> result A -> Prop) : Prop :=
  exists requests,
    calls (fst (m w)) = (calls w ++ requests)%list /\
    Q requests (fst (m w)) (snd (m w)).

Section Posts.

Context {backend : Backend}.

(** The backend refused a request of the standard kind. *)
Definition standard_failure (e : exn) : Prop :=
  exists o history,
    e = BackendError o /\ standard_request o = true /\
    accepts history o = false.

(** What [draw_glyph] guarantees. *)
Definition glyph_post (font_id : string) (code : Z) (x y : Q) (n : Z)
  (w : world) (requests : list op) (w' : world) (r : result Z) : Prop :=
  frame w' w /\ Forall (in_cell code x y) requests /\
  cells_drawn requests = 0%nat /\
  match r with
  | Ok m =>
      (forall black, m = n + black_glyphs black (calls w) requests) /\
      ((m = n + 1 /\ exists char,
           Py.chr code = Ok char /\
           requests = glyph_requests font_id x y char)
       \/ (m = n /\ exists attempted,
             requests = (attempted ++ placeholder_requests x y)%list))
  | Raise e => standard_failure e
  end.

(** What the body of either grid loop guarantees for the cell of [code]. *)
Definition cell_post (start_code code n : Z) (w : world)
  (requests : list op) (w' : world) (r : result (flow Z)) : Prop :=
  frame w' w /\
  Forall (in_cell code (cell_x (cell_col start_code code))
            (cell_y (cell_row start_code code))) requests /\
  (cells_drawn requests <= 1)%nat /\
  match r with
  | Ok (Next m) =>
      cell_row start_code code < rows /\
      forall black, m = n + black_glyphs black (calls w) requests
  | Ok (Break m) => requests = [] /\ m = n /\ rows <= cell_row start_code code
  | Raise e => standard_failure e \/ (e = ValueError code /\ code < 0)
  end.

(** A request placed in the cell of one of [codes]. *)
Definition in_grid (start_code : Z) (codes : list Z) (o : op) : Prop :=
  exists code,
    In code codes /\
    in_cell code (cell_x (cell_col start_code code))
      (cell_y (cell_row start_code code)) o.

(** What either grid loop guarantees over [codes]. *)
Definition grid_post (start_code : Z) (codes : list Z) (n : Z) (w : world)
  (requests : list op) (w' : world) (r : result Z) : Prop :=
  frame w' w /\ Forall (in_grid start_code codes) requests /\
  (cells_drawn requests <= List.length codes)%nat /\
  match r with
  | Ok m => forall black, m = n + black_glyphs black (calls w) requests
  | Raise e =>
      standard_failure e \/
      exists code, In code codes /\ e = ValueError code /\ code < 0
  end.

End Posts.

(** ** Tallies of a run (specification side) *)

(** What the three replacements of the font identifier do to one
    character. *)
Definition id_char (c : ascii) : ascii :=
  if (Ascii.eqb c " " || Ascii.eqb c "-" || Ascii.eqb c ".")%bool
  then "_"%char else c.







Section Tallies.

Context {backend : Backend}.

(** What the body of a grid loop adds to the count and to the cells;
    [labelled] tells the body of [draw_character_grid], which computes a key
    label, from that of [draw_extended_grid]. *)
Definition cell_tally (labelled : bool) (start_code code n : Z)
  (requests : list op) (r : result (flow Z)) : Prop :=
  match r with
  | Ok (Next m) =>
      cell_row start_code code < rows /\ cells_drawn requests = 1%nat /\
      n <= m <= n + 1 /\ (code < 0 -> m = n) /\
      (labelled = true -> 0 <= code)
  | Ok (Break m) =>
      rows <= cell_row start_code code /\ requests = [] /\ m = n
  | Raise e =>
      standard_failure e \/
      (labelled = true /\ code < 0 /\ e = ValueError code /\
       requests =
         [ SetStrokeColorRGB 0.8 0.8 0.8;
           Rect (cell_x (cell_col start_code code))
             (cell_y (cell_row start_code code) - cell_size)%Q
             cell_size cell_size ])
  end.

(** What a grid loop adds over [codes]. *)
Definition grid_tally (labelled : bool) (start_code : Z) (codes : list Z)
  (n : Z) (requests : list op) (r : result Z) : Prop :=
  match r with
  | Ok m =>
      n <= m <= n + Z.of_nat (List.length codes) /\
      (Forall (fun c => c < 0) codes -> m = n) /\
      (Forall (fun c => cell_row start_code c < rows) codes ->
       cells_drawn requests = List.length codes /\
       (labelled = true -> Forall (fun c => 0 <= c) codes))
  | Raise e =>
      standard_failure e \/
      (labelled = true /\
       exists code, In code codes /\ code < 0 /\ e = ValueError code)
  end.



End Tallies.

(** ** More collaborators for the examples *)

(** A machine with ArcGIS Pro installed in its default place: two fonts,
    one of them in a sub-directory. *)
Definition pro_host : Host :=
  {| importable := fun _ => true;
     pip_installs := fun _ => true;
     environ_PROGRAMFILES := None;
     stat := fun path =>
       if String.eqb path "C:\Program Files\ArcGIS\Pro\Resources\Fonts" then
         Some (Dir [("ESRI Cartography.ttf", File);
                    ("more", Dir [("esri_3.OTF", File)])])
       else None;
     path_join := fun a b => a ++ "\" ++ b;
     makedirs_ok := fun _ => true;
     registered_at_start := [] |}.

(** A machine where reportlab is missing and cannot be installed. *)
Definition no_pip_host : Host :=
  {| importable := fun _ => false;
     pip_installs := fun _ => false;
     environ_PROGRAMFILES := None;
     stat := fun _ => None;
     path_join := fun a b => a ++ "\" ++ b;
     makedirs_ok := fun _ => true;
     registered_at_start := [] |}.


(* ================================================================= *)
(** * Properties *)

(** Boolean tests of the script turned into arithmetic facts. *)
Ltac bool_to_Z :=
  repeat match goal with
    | H : (_ && _)%bool = true |- _ => apply andb_prop in H; destruct H
    | H : (_ <=? _) = true |- _ => apply Z.leb_le in H
    | H : (_ <? _) = true |- _ => apply Z.ltb_lt in H
    | H : (_ <=? _) = false |- _ => apply Z.leb_gt in H
    | H : (_ <? _) = false |- _ => apply Z.ltb_ge in H
    | H : (_ =? _) = true |- _ => apply Z.eqb_eq in H
    | H : (_ =? _) = false |- _ => apply Z.eqb_neq in H
    end.

(** ** The text primitives on examples *)

Example str_65 : Py.str 65 = "65".
Proof. reflexivity. Qed.
Example str_0 : Py.str 0 = "0".
Proof. reflexivity. Qed.
Example str_neg : Py.str (-120) = "-120".
Proof. reflexivity. Qed.
Example format_04X_200 : Py.format_0X 4 200 = "00C8".
Proof. reflexivity. Qed.
Example format_04X_neg : Py.format_0X 4 (-1) = "-001".
Proof. reflexivity. Qed.
Example format_02X_65 : Py.format_0X 2 65 = "41".
Proof. reflexivity. Qed.
Example format_02X_wide : Py.format_0X 2 256 = "100".
Proof. reflexivity. Qed.
Example chr_dash : Py.chr 8212 = Ok "—".
Proof. reflexivity. Qed.
Example range_3 : Py.range 32 35 = [32; 33; 34].
Proof. reflexivity. Qed.
Example range_empty : Py.range 5 2 = [].
Proof. reflexivity. Qed.
Example splitext_plain : splitext "Foo.ttf" = ("Foo", ".ttf").
Proof. reflexivity. Qed.
Example splitext_two_dots : splitext "a.b.otf" = ("a.b", ".otf").
Proof. reflexivity. Qed.
Example splitext_leading_dot : splitext ".cshrc" = (".cshrc", "").
Proof. reflexivity. Qed.
Example font_id_example : font_id_of "ESRI AMFM-Gas 1.0" = "ESRI_AMFM_Gas_1_0".
Proof. reflexivity. Qed.
Example page_size : (page_width == 792 /\ page_height == 612)%Q.
Proof. split; reflexivity. Qed.

(** ** Strings *)

Lemma string_app_assoc (s1 s2 s3 : string) :
  (s1 ++ s2) ++ s3 = s1 ++ (s2 ++ s3).
Proof.
  induction s1 as [| c s1 IH]; simpl; [reflexivity | now rewrite IH].
Qed.

Lemma string_app_length (s1 s2 : string) :
  length (s1 ++ s2) = (length s1 + length s2)%nat.
Proof.
  induction s1 as [| c s1 IH]; simpl; [reflexivity | now rewrite IH].
Qed.

Lemma string_app_empty_r (s : string) : s ++ "" = s.
Proof.
  induction s as [| c s IH]; simpl; [reflexivity | now rewrite IH].
Qed.

(** ** Numerals *)

Section Numerals.

Lemma digit_value_digit_char (d : Z) :
  0 <= d < 16 -> digit_value (Py.digit_char d) = Some d.
Proof.
  intros Hd.
  assert (Hcases : d = 0 \/ d = 1 \/ d = 2 \/ d = 3 \/ d = 4 \/ d = 5 \/ d = 6
                   \/ d = 7 \/ d = 8 \/ d = 9 \/ d = 10 \/ d = 11 \/ d = 12
                   \/ d = 13 \/ d = 14 \/ d = 15) by lia.
  repeat (destruct Hcases as [-> | Hcases]; [reflexivity |]).
  subst d. reflexivity.
Qed.

Lemma digits_fuel_S (fuel : nat) (base n : Z) (acc : string) :
  Py.digits_fuel (S fuel) base n acc =
  if n / base =? 0 then String (Py.digit_char (n mod base)) acc
  else Py.digits_fuel fuel base (n / base)
         (String (Py.digit_char (n mod base)) acc).
Proof. reflexivity. Qed.

Lemma digits_fuel_acc (fuel : nat) :
  forall base n acc,
    Py.digits_fuel fuel base n acc = Py.digits_fuel fuel base n "" ++ acc.
Proof.
  induction fuel as [| fuel IH]; intros base n acc; simpl.
  - reflexivity.
  - destruct (n / base =? 0).
    + reflexivity.
    + rewrite IH. rewrite (IH base (n / base) (String _ "")).
      rewrite string_app_assoc. reflexivity.
Qed.

Lemma value_from_app (base : Z) (s1 : string) :
  forall acc s2,
    value_from base acc (s1 ++ s2) =
    match value_from base acc s1 with
    | Some v => value_from base v s2
    | None => None
    end.
Proof.
  induction s1 as [| c s1 IH]; intros acc s2; simpl.
  - reflexivity.
  - destruct (digit_value c) as [d |]; [| reflexivity].
    destruct (d <? base); [apply IH | reflexivity].
Qed.

(** With fuel for [2 ^ fuel > n], the digits read back as [n]. *)
Lemma digits_fuel_value (base : Z) (Hbase : 2 <= base <= 16) (fuel : nat) :
  forall n,
    0 <= n < 2 ^ Z.of_nat (S fuel) ->
    value_from base 0 (Py.digits_fuel (S fuel) base n "") = Some n.
Proof.
  induction fuel as [| fuel IH]; intros n Hn.
  - change (2 ^ Z.of_nat 1) with 2 in Hn.
    assert (Hq : n / base = 0) by (apply Z.div_small; lia).
    assert (Hm : n mod base = n) by (apply Z.mod_small; lia).
    simpl. rewrite Hq, Hm. simpl.
    rewrite digit_value_digit_char by lia.
    replace (n <? base) with true by (symmetry; apply Z.ltb_lt; lia).
    reflexivity.
  - assert (Hm : 0 <= n mod base < base) by (apply Z.mod_pos_bound; lia).
    rewrite digits_fuel_S.
    destruct (Z.eqb_spec (n / base) 0) as [Hq | Hq].
    + assert (Hn' : n = n mod base)
        by (rewrite (Z.div_mod n base) at 1 by lia; rewrite Hq; lia).
      simpl. rewrite digit_value_digit_char by lia.
      replace (n mod base <? base) with true by (symmetry; apply Z.ltb_lt; lia).
      f_equal. lia.
    + rewrite digits_fuel_acc, value_from_app.
      assert (Hq0 : 0 <= n / base) by (apply Z.div_pos; lia).
      assert (Hq2 : n / base < 2 ^ Z.of_nat (S fuel)).
      { apply Z.div_lt_upper_bound; [lia |].
        replace (Z.of_nat (S (S fuel))) with (Z.succ (Z.of_nat (S fuel))) in Hn
          by lia.
        rewrite Z.pow_succ_r in Hn by lia.
        assert (0 < 2 ^ Z.of_nat (S fuel)) by (apply Z.pow_pos_nonneg; lia).
        nia. }
      rewrite IH by lia.
      simpl. rewrite digit_value_digit_char by lia.
      replace (n mod base <? base) with true by (symmetry; apply Z.ltb_lt; lia).
      f_equal. rewrite (Z.div_mod n base) at 3 by lia. lia.
Qed.

Lemma digits_nonempty (base n : Z) : Py.digits base n <> "".
Proof.
  unfold Py.digits. cbn [Py.digits_fuel].
  destruct (n / base =? 0); [discriminate |].
  rewrite digits_fuel_acc.
  destruct (Py.digits_fuel _ base (n / base) ""); discriminate.
Qed.

(** [Py.digits] has enough fuel: the numeral denotes the number. *)
Lemma digits_value (base n : Z) :
  2 <= base <= 16 -> 0 <= n -> numeral_value base (Py.digits base n) = Some n.
Proof.
  intros Hbase Hn.
  assert (Hv : value_from base 0 (Py.digits base n) = Some n).
  { unfold Py.digits. apply digits_fuel_value; [assumption |].
    split; [assumption |].
    destruct (Z.eq_dec n 0) as [-> | Hnz]; [reflexivity |].
    replace (Z.of_nat (S (Z.to_nat (Z.log2 n)))) with (Z.succ (Z.log2 n))
      by (pose proof (Z.log2_nonneg n); lia).
    apply Z.log2_spec. lia. }
  unfold numeral_value.
  destruct (Py.digits base n) eqn:E; [| exact Hv].
  exfalso. exact (digits_nonempty base n E).
Qed.

Lemma digits_fuel_length (base : Z) (Hbase : 2 <= base) (fuel : nat) :
  forall n k,
    0 <= n < base ^ Z.of_nat (S k) ->
    (length (Py.digits_fuel fuel base n "") <= S k)%nat.
Proof.
  induction fuel as [| fuel IH]; intros n k Hn.
  - simpl. lia.
  - rewrite digits_fuel_S.
    destruct (Z.eqb_spec (n / base) 0) as [Hq | Hq]; [simpl; lia |].
    rewrite digits_fuel_acc, string_app_length. simpl.
    destruct k as [| k].
    + exfalso. apply Hq. apply Z.div_small.
      change (Z.of_nat 1) with 1 in Hn. rewrite Z.pow_1_r in Hn. lia.
    + assert (Hlen : (length (Py.digits_fuel fuel base (n / base) "") <= S k)%nat).
      { apply IH. split; [apply Z.div_pos; lia |].
        apply Z.div_lt_upper_bound; [lia |].
        replace (Z.of_nat (S (S k))) with (Z.succ (Z.of_nat (S k))) in Hn by lia.
        rewrite Z.pow_succ_r in Hn by lia. lia. }
      lia.
Qed.

Lemma digits_length (base n : Z) (k : nat) :
  2 <= base -> 0 <= n < base ^ Z.of_nat (S k) ->
  (1 <= length (Py.digits base n) <= S k)%nat.
Proof.
  intros Hbase Hn. split.
  - pose proof (digits_nonempty base n) as Hne.
    destruct (Py.digits base n); [congruence | simpl; lia].
  - unfold Py.digits. now apply digits_fuel_length.
Qed.

Lemma zeros_length (k : nat) : length (Py.zeros k) = k.
Proof. induction k as [| k IH]; simpl; [reflexivity | now rewrite IH]. Qed.

Lemma value_from_zeros (base : Z) (k : nat) (s : string) :
  0 < base -> value_from base 0 (Py.zeros k ++ s) = value_from base 0 s.
Proof.
  intros Hbase. induction k as [| k IH]; simpl; [reflexivity |].
  replace (0 <? base) with true by (symmetry; apply Z.ltb_lt; lia).
  exact IH.
Qed.

(** A non-negative number below [16 ^ width] is formatted with exactly
    [width] hexadecimal digits that denote it. *)
Lemma format_0X_spec (width : nat) (n : Z) :
  0 <= n < 16 ^ Z.of_nat (S width) ->
  length (Py.format_0X (S width) n) = S width /\
  numeral_value 16 (Py.format_0X (S width) n) = Some n.
Proof.
  intros Hn. unfold Py.format_0X.
  replace (n <? 0) with false by (symmetry; apply Z.ltb_ge; lia).
  rewrite Z.abs_eq by lia.
  pose proof (digits_length 16 n width ltac:(lia) Hn) as Hlen.
  pose proof (digits_value 16 n ltac:(lia) ltac:(lia)) as Hval.
  split.
  - rewrite string_app_length, zeros_length. lia.
  - unfold numeral_value in *.
    destruct (Py.digits 16 n) as [| c body] eqn:E; [discriminate |].
    destruct (Py.zeros (S width - length (String c body)) ++ String c body)
      as [| c' s'] eqn:E'.
    + destruct (Py.zeros _) in E'; discriminate.
    + rewrite <- E', value_from_zeros by lia. exact Hval.
Qed.

(** [str] of a non-negative number denotes it, in decimal digits only. *)
Lemma str_value (n : Z) : 0 <= n -> numeral_value 10 (Py.str n) = Some n.
Proof.
  intros Hn. unfold Py.str.
  replace (n <? 0) with false by (symmetry; apply Z.ltb_ge; lia).
  apply digits_value; lia.
Qed.

End Numerals.

(** ** Ranges *)

Lemma range_In (a b c : Z) : In c (Py.range a b) <-> a <= c < b.
Proof.
  unfold Py.range. rewrite in_map_iff. split.
  - intros [i [<- Hi]]. apply in_seq in Hi. lia.
  - intros Hc. exists (Z.to_nat (c - a)). split; [lia |].
    apply in_seq. lia.
Qed.

Lemma range_length (a b : Z) :
  List.length (Py.range a b) = Z.to_nat (b - a).
Proof. unfold Py.range. now rewrite length_map, length_seq. Qed.


Lemma range_nil (a b : Z) : b <= a -> Py.range a b = [].
Proof.
  intros Hab. unfold Py.range.
  replace (Z.to_nat (b - a)) with O by lia. reflexivity.
Qed.

Lemma grid_codes_In (start_code end_code code : Z) :
  In code (grid_codes start_code end_code) <->
  start_code <= code <= end_code /\ code < start_code + rows * cols.
Proof. unfold grid_codes. rewrite range_In. lia. Qed.

(** ** Cell labels *)

Lemma special_chars_short (code : Z) (name : string) :
  lookup_code code special_chars = Some name -> (length name <= 5)%nat.
Proof.
  unfold special_chars. cbn [lookup_code].
  repeat (destruct (code =? _);
          [intros H; injection H as <-; simpl; lia |]).
  discriminate.
Qed.

Lemma chr_ascii (code : Z) : 0 <= code < 128 -> Py.chr code = Ok (char_of code).
Proof.
  intros Hc. unfold Py.chr, Py.utf8, char_of, Py.byte.
  replace (0 <=? code) with true by (symmetry; apply Z.leb_le; lia).
  replace (code <? 1114112) with true by (symmetry; apply Z.ltb_lt; lia).
  replace (code <? 128) with true by (symmetry; apply Z.ltb_lt; lia).
  reflexivity.
Qed.

Lemma unicode_label_spec (code : Z) :
  0 <= code < 65536 ->
  exists h, unicode_label code = "U+" ++ h /\ hex_numeral 4 code h.
Proof.
  intros Hc. exists (Py.format_0X 4 code). split; [reflexivity |].
  apply (format_0X_spec 3 code). exact Hc.
Qed.

Lemma key_label_spec (code : Z) :
  0 <= code < 65536 ->
  exists label,
    key_label code = Ok label /\ label_as_specified code label /\
    (length label <= 6)%nat.
Proof.
  intros Hc. unfold key_label, label_as_specified, is_digit_or_letter.
  destruct (lookup_code code special_chars) as [name |] eqn:Hsp.
  - exists name. repeat split. apply special_chars_short in Hsp. lia.
  - destruct ((48 <=? code) && (code <=? 57)) eqn:Hd; cbn [orb].
    { bool_to_Z. exists (char_of code). rewrite chr_ascii by lia.
      repeat split; simpl; lia. }
    destruct ((65 <=? code) && (code <=? 90)) eqn:Hu; cbn [orb].
    { bool_to_Z. exists (char_of code). rewrite chr_ascii by lia.
      repeat split; simpl; lia. }
    destruct ((97 <=? code) && (code <=? 122)) eqn:Hl; cbn [orb].
    { bool_to_Z. exists (char_of code). rewrite chr_ascii by lia.
      repeat split; simpl; lia. }
    destruct (Z.ltb_spec code 127) as [Hlt | Hge].
    { exists (char_of code). rewrite chr_ascii by lia.
      repeat split; simpl; lia. }
    destruct (unicode_label_spec code Hc) as [h [Hh Hnum]].
    exists ("U+" ++ h). unfold unicode_label in Hh. rewrite Hh.
    repeat split.
    + now exists h.
    + destruct Hnum as [Hlen _]. simpl. lia.
Qed.

Lemma truncate_label_short (label : string) :
  (length label <= 6)%nat -> truncate_label label = label.
Proof.
  intros Hlen. unfold truncate_label.
  replace (6 <? length label)%nat with false
    by (symmetry; apply Nat.ltb_ge; lia).
  reflexivity.
Qed.

(** C3: on the basic page the key label is the special-name table entry when
    there is one (32 gives Space), the character itself for digits and
    letters (65 gives A), the raw character for other codes below 127, and
    U+ followed by four uppercase hexadecimal digits from 127 on (200 gives
    U+00C8), and that label is drawn as it is; on the extended page the label
    is always U+ followed by four uppercase hexadecimal digits.  Proved for
    every code from 0 to 65535, which contains both pages' ranges. *)
Theorem labels_of_both_pages (code : Z) (Hcode : 0 <= code < 65536) :
  (exists label,
     key_label code = Ok label /\ truncate_label label = label /\
     label_as_specified code label) /\
  (exists h, unicode_label code = "U+" ++ h /\ hex_numeral 4 code h) /\
  key_label 32 = Ok "Space" /\ key_label 65 = Ok "A" /\
  key_label 200 = Ok "U+00C8".
Proof.
  split; [| split; [now apply unicode_label_spec | now repeat split]].
  destruct (key_label_spec code Hcode) as [label [Hk [Hs Hlen]]].
  exists label. repeat split; try assumption.
  now apply truncate_label_short.
Qed.

Lemma labels_of_both_pages_witness :
  (exists label,
     key_label 200 = Ok label /\ truncate_label label = label /\
     label_as_specified 200 label) /\
  (exists h, unicode_label 200 = "U+" ++ h /\ hex_numeral 4 200 h) /\
  key_label 32 = Ok "Space" /\ key_label 65 = Ok "A" /\
  key_label 200 = Ok "U+00C8".
Proof. apply (labels_of_both_pages 200). lia. Defined.

(** C10: for every code rendered on either page the label has at most six
    characters, so the truncation of the basic page leaves it unchanged (the
    extended page has no truncation step).  Proved for every code from 0 to
    65535. *)
Theorem labels_never_truncated (code : Z) (Hcode : 0 <= code < 65536) :
  (exists label,
     key_label code = Ok label /\ (length label <= 6)%nat /\
     (6 <? length label)%nat = false /\ truncate_label label = label) /\
  (length (unicode_label code) <= 6)%nat.
Proof.
  split.
  - destruct (key_label_spec code Hcode) as [label [Hk [_ Hlen]]].
    exists label. repeat split; try assumption.
    + apply Nat.ltb_ge. lia.
    + now apply truncate_label_short.
  - destruct (unicode_label_spec code Hcode) as [h [-> [Hlen _]]].
    simpl. lia.
Qed.

Lemma labels_never_truncated_witness :
  (exists label,
     key_label 127 = Ok label /\ (length label <= 6)%nat /\
     (6 <? length label)%nat = false /\ truncate_label label = label) /\
  (length (unicode_label 127) <= 6)%nat.
Proof. apply (labels_never_truncated 127). lia. Defined.




(** ** Rules for statements *)

Section Rules.

Context {backend : Backend}.

Lemma runs_ret {A : Type} (a : A) (w : world) Q :
  Q [] w (Ok a) -> runs (ret a) w Q.
Proof. intros HQ. exists []. cbn. now rewrite app_nil_r. Qed.

Lemma runs_lift {A : Type} (r : result A) (w : world) Q :
  Q [] w r -> runs (lift r) w Q.
Proof. intros HQ. exists []. cbn. now rewrite app_nil_r. Qed.

Lemma runs_call (o : op) (w : world)
  (Q : list op -> world -> result unit -> Prop) :
  (accepts (calls w) o = true -> Q [o] (fst (call o w)) (Ok tt)) ->
  (accepts (calls w) o = false ->
   Q [o] (fst (call o w)) (Raise (BackendError o))) ->
  runs (call o) w Q.
Proof.
  intros Hok Hno. exists [o]. split; [reflexivity |].
  cbn [call fst snd] in *.
  destruct (accepts (calls w) o); [now apply Hok | now apply Hno].
Qed.

Lemma runs_bind {A B : Type} (m : M A) (k : A -> M B) (w : world) Q :
  runs m w (fun l1 w1 r1 =>
              match r1 with
              | Ok a => runs (k a) w1 (fun l2 w2 r2 => Q (l1 ++ l2)%list w2 r2)
              | Raise e => Q l1 w1 (Raise e)
              end) ->
  runs (bind m k) w Q.
Proof.
  intros [l1 [Hc H1]]. unfold runs, bind.
  destruct (m w) as [w1 [a | e]]; cbn [fst snd] in *.
  - destruct H1 as [l2 [Hc2 H2]]. exists (l1 ++ l2)%list.
    split; [| exact H2]. now rewrite Hc2, Hc, app_assoc.
  - exists l1. now split.
Qed.

Lemma runs_try {A : Type} (body : M A) (handler : exn -> M A) (w : world) Q :
  runs body w (fun l1 w1 r1 =>
                 match r1 with
                 | Ok a => Q l1 w1 (Ok a)
                 | Raise e =>
                     runs (handler e) w1
                       (fun l2 w2 r2 => Q (l1 ++ l2)%list w2 r2)
                 end) ->
  runs (try_except body handler) w Q.
Proof.
  intros [l1 [Hc H1]]. unfold runs, try_except.
  destruct (body w) as [w1 [a | e]]; cbn [fst snd] in *.
  - exists l1. now split.
  - destruct H1 as [l2 [Hc2 H2]]. exists (l1 ++ l2)%list.
    split; [| exact H2]. now rewrite Hc2, Hc, app_assoc.
Qed.

Lemma runs_weaken {A : Type} (m : M A) (w : world)
  (Q Q' : list op -> world -> result A -> Prop) :
  runs m w Q ->
  (forall l w' r, calls w' = (calls w ++ l)%list -> Q l w' r -> Q' l w' r) ->
  runs m w Q'.
Proof.
  intros [l [Hc HQ]] HQQ. exists l. split; [exact Hc | now apply HQQ].
Qed.

Lemma runs_silent {A : Type} (m : M A) (w : world) Q :
  calls (fst (m w)) = calls w -> Q [] (fst (m w)) (snd (m w)) ->
  runs m w Q.
Proof. intros Hc HQ. exists []. now rewrite app_nil_r. Qed.

(** A statement that sends no request and keeps [page_count]. *)
Lemma runs_quiet {A : Type} (m : M A) (w : world) Q :
  calls (fst (m w)) = calls w -> page_count (fst (m w)) = page_count w ->
  (forall w1 r1,
      calls w1 = calls w -> page_count w1 = page_count w -> Q [] w1 r1) ->
  runs m w Q.
Proof. intros Hc Hp HQ. apply runs_silent; [exact Hc | now apply HQ]. Qed.

End Rules.

(** One step of symbolic execution, by the shape of the statement. *)
Ltac step :=
  lazymatch goal with
  | |- runs (bind _ _) _ _ => apply runs_bind
  | |- runs (call _) _ _ =>
      let H := fresh "Hacc" in
      apply runs_call; intros H;
      cbn [call fst snd calls clock_reads registered console page_count] in *
  | |- runs (ret _) _ _ => apply runs_ret
  | |- runs (lift _) _ _ => apply runs_lift
  | |- runs (try_except _ _) _ _ => apply runs_try
  end.

Ltac frame_solve :=
  unfold frame in *;
  cbn [calls clock_reads registered console page_count] in *;
  intuition congruence.

(** Counts the black glyphs of an explicit list of requests whose fates are
    among the hypotheses. *)
Ltac count_black :=
  intros; unfold glyph_requests, placeholder_requests;
  cbn [black_glyphs app];
  repeat match goal with H : accepts _ _ = _ |- _ => rewrite H end;
  cbn [andb is_black]; try reflexivity.

(** A refused request of the standard kind, at a leaf of the execution. *)
Ltac refused :=
  left; eexists _, _; split; [reflexivity |]; split; [reflexivity | eassumption].

Ltac in_cell_solve :=
  unfold glyph_requests, placeholder_requests;
  repeat (apply Forall_cons; [cbn [in_cell]; eauto 12 |]);
  try apply Forall_nil.

Ltac count_cells :=
  unfold cells_drawn; cbn [filter is_rect List.length app]; lia.

Ltac call_leaf :=
  cbn [app]; split; [frame_solve |]; split; [in_cell_solve |];
  split; [count_cells | refused].

Ltac next_call := step; step; [| call_leaf].

(** ** Drawing one cell *)

Section Cells.

Context {backend : Backend}.

Lemma black_glyphs_app (l1 : list op) :
  forall black history l2,
    black_glyphs black history (l1 ++ l2)%list =
    black_glyphs black history l1
    + black_glyphs (fill_after black history l1) (history ++ l1)%list l2.
Proof.
  induction l1 as [| o l1 IH]; intros black history l2.
  - simpl. now rewrite app_nil_r.
  - cbn [black_glyphs fill_after app].
    replace (history ++ o :: l1)%list with ((history ++ [o]) ++ l1)%list
      by (rewrite <- app_assoc; reflexivity).
    destruct o; rewrite IH; lia.
Qed.

Lemma cells_drawn_app (l1 l2 : list op) :
  cells_drawn (l1 ++ l2) = (cells_drawn l1 + cells_drawn l2)%nat.
Proof. unfold cells_drawn. now rewrite filter_app, length_app. Qed.

Lemma placeholder_spec (code : Z) (x y : Q) (n : Z) (w : world) :
  runs (call (SetFont "Helvetica" 8) ;;
        call (SetFillColorRGB 0.8 0.8 0.8) ;;
        call (DrawCentredString (x + cell_size / 2)%Q
                (y - cell_size + 0.15 * inch)%Q "—") ;;
        ret n)%stmt w
    (fun requests w' r =>
       frame w' w /\ Forall (in_cell code x y) requests /\
       cells_drawn requests = 0%nat /\
       (forall black, black_glyphs black (calls w) requests = 0) /\
       match r with
       | Ok m => m = n /\ requests = placeholder_requests x y
       | Raise e => standard_failure e
       end).
Proof.
  repeat step;
    (split; [frame_solve |]);
    (split; [in_cell_solve |]);
    (split; [reflexivity |]);
    (split; [count_black |]);
    try (split; reflexivity);
    eexists _, _; (split; [reflexivity |]); (split; [reflexivity | eassumption]).
Qed.

(** After a failed attempt at the glyph, the handler draws the dash. *)
Lemma glyph_fallback (font_id : string) (code : Z) (x y : Q) (n : Z)
  (w0 w : world) (attempted : list op) :
  calls w = (calls w0 ++ attempted)%list -> frame w w0 ->
  Forall (in_cell code x y) attempted -> cells_drawn attempted = 0%nat ->
  (forall black, black_glyphs black (calls w0) attempted = 0) ->
  runs (call (SetFont "Helvetica" 8) ;;
        call (SetFillColorRGB 0.8 0.8 0.8) ;;
        call (DrawCentredString (x + cell_size / 2)%Q
                (y - cell_size + 0.15 * inch)%Q "—") ;;
        ret n)%stmt w
    (fun l w' r => glyph_post font_id code x y n w0 (attempted ++ l) w' r).
Proof.
  intros Hc Hf Hin Hcells Hblack.
  eapply runs_weaken; [apply (placeholder_spec code) |].
  intros l w' r _ (Hf' & Hin' & Hcells' & Hblack' & Hr).
  split; [frame_solve |].
  split; [apply Forall_app; now split |].
  split; [rewrite cells_drawn_app; lia |].
  destruct r as [m | e]; [| exact Hr].
  destruct Hr as [-> ->]. split.
  - intros black. rewrite black_glyphs_app, Hblack, <- Hc, Hblack'. lia.
  - right. split; [reflexivity |]. now exists attempted.
Qed.

Lemma draw_glyph_spec (font_id : string) (code : Z) (x y : Q) (n : Z)
  (w : world) :
  runs (draw_glyph font_id code x y n) w (glyph_post font_id code x y n w).
Proof.
  unfold draw_glyph.
  step. step. step.
  2: { refine (glyph_fallback font_id code x y n w _
                 [SetFont font_id font_size_char] _ _ _ _ _);
       [reflexivity | frame_solve | in_cell_solve | reflexivity
       | count_black]. }
  step. step.
  2: { refine (glyph_fallback font_id code x y n w _
                 [SetFont font_id font_size_char; SetFillColorRGB 0 0 0]
                 _ _ _ _ _);
       [cbn [calls]; now rewrite <- app_assoc | frame_solve
       | in_cell_solve | reflexivity | count_black]. }
  step. step.
  destruct (Py.chr code) as [char | e] eqn:Hchr.
  2: { refine (glyph_fallback font_id code x y n w _
                 [SetFont font_id font_size_char; SetFillColorRGB 0 0 0]
                 _ _ _ _ _);
       [cbn [calls]; now rewrite <- app_assoc | frame_solve
       | in_cell_solve | reflexivity | count_black]. }
  step. step.
  2: { refine (glyph_fallback font_id code x y n w _
                 (glyph_requests font_id x y char) _ _ _ _ _);
       [cbn [calls]; now rewrite <- !app_assoc | frame_solve
       | in_cell_solve | reflexivity | count_black]. }
  step. cbn [app].
  split; [frame_solve |].
  split; [in_cell_solve |].
  split; [reflexivity |].
  split; [count_black | left; split; [reflexivity |]; now exists char].
Qed.

Lemma key_label_raise (code : Z) (e : exn) :
  key_label code = Raise e -> e = ValueError code /\ code < 0.
Proof.
  unfold key_label.
  destruct (lookup_code code special_chars); [discriminate |].
  assert (Hchr : code < 127 -> Py.chr code = Raise e ->
                 e = ValueError code /\ code < 0).
  { intros Hlt. unfold Py.chr.
    destruct (Z.leb_spec 0 code) as [Hge | Hneg]; cbn [andb].
    - replace (code <? 1114112) with true by (symmetry; apply Z.ltb_lt; lia).
      discriminate.
    - intros H. injection H as <-. split; [reflexivity | lia]. }
  destruct ((48 <=? code) && (code <=? 57)) eqn:Hd;
    [bool_to_Z; apply Hchr; lia |].
  destruct ((65 <=? code) && (code <=? 90)) eqn:Hu;
    [bool_to_Z; apply Hchr; lia |].
  destruct ((97 <=? code) && (code <=? 122)) eqn:Hl;
    [bool_to_Z; apply Hchr; lia |].
  destruct (Z.ltb_spec code 127) as [Hlt | Hge]; [now apply Hchr | discriminate].
Qed.


Lemma character_cell_spec (font_id : string) (start_code code n : Z)
  (w : world) :
  runs (character_cell font_id start_code code n) w
    (cell_post start_code code n w).
Proof.
  unfold character_cell.
  destruct (Z.leb_spec rows (cell_row start_code code)) as [Hbreak | Hrow].
  { step. split; [frame_solve |]. split; [constructor |].
    split; [count_cells |]. now repeat split. }
  set (x := cell_x (cell_col start_code code)).
  set (y := cell_y (cell_row start_code code)).
  unfold cell_post. fold x y.
  do 2 next_call.
  step. step.
  destruct (key_label code) as [label | e] eqn:Hlabel.
  2: { cbn [app]. split; [frame_solve |]. split; [in_cell_solve |].
       split; [count_cells |]. right. now apply key_label_raise. }
  do 7 next_call.
  step. eapply runs_weaken; [apply draw_glyph_spec |].
  cbn [calls]. intros l1 w1 [m | e] Hc (Hf & Hin & Hcells & Hr).
  2: { cbn [app]. split; [frame_solve |].
       split; [repeat (apply Forall_cons; [cbn [in_cell]; eauto 12 |]); exact Hin |].
       split; [| now left].
       unfold cells_drawn in *. cbn [filter is_rect List.length app].
       rewrite Hcells. lia. }
  destruct Hr as [Hm _]. cbn [calls] in Hm.
  assert (Hin' : forall tail, Forall (in_cell code x y) tail ->
            Forall (in_cell code x y)
              ([SetStrokeColorRGB 0.8 0.8 0.8] ++
               [Rect x (y - cell_size)%Q cell_size cell_size] ++
               [SetFont "Helvetica-Bold" font_size_label] ++
               [SetFillColorRGB 0.2 0.2 0.2] ++
               [DrawString (x + 0.03 * inch)%Q (y - 0.12 * inch)%Q
                  (truncate_label label)] ++
               [SetFont "Helvetica" 6] ++
               [SetFillColorRGB 0.5 0.5 0.5] ++
               [DrawString (x + 0.03 * inch)%Q (y - 0.20 * inch)%Q
                  (decimal_line code)] ++
               [DrawString (x + 0.03 * inch)%Q (y - 0.27 * inch)%Q
                  (hex_line code)] ++ l1 ++ tail)).
  { intros tail Htail. cbn [app].
    repeat (apply Forall_cons; [cbn [in_cell]; eauto 12 |]).
    apply Forall_app. now split. }
  assert (Hcells' : forall tail, cells_drawn tail = 0%nat ->
            (cells_drawn
              ([SetStrokeColorRGB 0.8 0.8 0.8] ++
               [Rect x (y - cell_size)%Q cell_size cell_size] ++
               [SetFont "Helvetica-Bold" font_size_label] ++
               [SetFillColorRGB 0.2 0.2 0.2] ++
               [DrawString (x + 0.03 * inch)%Q (y - 0.12 * inch)%Q
                  (truncate_label label)] ++
               [SetFont "Helvetica" 6] ++
               [SetFillColorRGB 0.5 0.5 0.5] ++
               [DrawString (x + 0.03 * inch)%Q (y - 0.20 * inch)%Q
                  (decimal_line code)] ++
               [DrawString (x + 0.03 * inch)%Q (y - 0.27 * inch)%Q
                  (hex_line code)] ++ l1 ++ tail) <= 1)%nat).
  { intros tail Htail. unfold cells_drawn in *.
    cbn [filter is_rect List.length app].
    rewrite filter_app, length_app, Hcells, Htail. lia. }
  step. step.
  2: { split; [frame_solve |]. split; [apply Hin'; in_cell_solve |].
       split; [now apply Hcells' | refused]. }
  step. rewrite app_nil_r.
  split; [frame_solve |]. split; [apply Hin'; in_cell_solve |].
  split; [now apply Hcells' |]. split; [exact Hrow |].
  intros black. cbn [black_glyphs app]. rewrite black_glyphs_app.
  match goal with
  | |- context [black_glyphs ?b ?h l1] => pose proof (Hm b) as Hmb
  end.
  cbn [black_glyphs] in *. lia.
Qed.

Lemma extended_cell_spec (font_id : string) (start_code code n : Z)
  (w : world) :
  runs (extended_cell font_id start_code code n) w
    (cell_post start_code code n w).
Proof.
  unfold extended_cell.
  destruct (Z.leb_spec rows (cell_row start_code code)) as [Hbreak | Hrow].
  { step. split; [frame_solve |]. split; [constructor |].
    split; [count_cells |]. now repeat split. }
  set (x := cell_x (cell_col start_code code)).
  set (y := cell_y (cell_row start_code code)).
  unfold cell_post. fold x y.
  do 8 next_call.
  step. eapply runs_weaken; [apply draw_glyph_spec |].
  cbn [calls]. intros l1 w1 [m | e] Hc (Hf & Hin & Hcells & Hr).
  2: { cbn [app]. split; [frame_solve |].
       split; [repeat (apply Forall_cons; [cbn [in_cell]; eauto 12 |]); exact Hin |].
       split; [| now left].
       unfold cells_drawn in *. cbn [filter is_rect List.length app].
       rewrite Hcells. lia. }
  destruct Hr as [Hm _]. cbn [calls] in Hm.
  assert (Hin' : forall tail, Forall (in_cell code x y) tail ->
            Forall (in_cell code x y)
              ([SetStrokeColorRGB 0.8 0.8 0.8] ++
               [Rect x (y - cell_size)%Q cell_size cell_size] ++
               [SetFont "Helvetica-Bold" font_size_label] ++
               [SetFillColorRGB 0.2 0.2 0.2] ++
               [DrawString (x + 0.03 * inch)%Q (y - 0.12 * inch)%Q
                  (unicode_label code)] ++
               [SetFont "Helvetica" 6] ++
               [SetFillColorRGB 0.5 0.5 0.5] ++
               [DrawString (x + 0.03 * inch)%Q (y - 0.20 * inch)%Q
                  (decimal_line code)] ++ l1 ++ tail)).
  { intros tail Htail. cbn [app].
    repeat (apply Forall_cons; [cbn [in_cell]; eauto 12 |]).
    apply Forall_app. now split. }
  assert (Hcells' : forall tail, cells_drawn tail = 0%nat ->
            (cells_drawn
              ([SetStrokeColorRGB 0.8 0.8 0.8] ++
               [Rect x (y - cell_size)%Q cell_size cell_size] ++
               [SetFont "Helvetica-Bold" font_size_label] ++
               [SetFillColorRGB 0.2 0.2 0.2] ++
               [DrawString (x + 0.03 * inch)%Q (y - 0.12 * inch)%Q
                  (unicode_label code)] ++
               [SetFont "Helvetica" 6] ++
               [SetFillColorRGB 0.5 0.5 0.5] ++
               [DrawString (x + 0.03 * inch)%Q (y - 0.20 * inch)%Q
                  (decimal_line code)] ++ l1 ++ tail) <= 1)%nat).
  { intros tail Htail. unfold cells_drawn in *.
    cbn [filter is_rect List.length app].
    rewrite filter_app, length_app, Hcells, Htail. lia. }
  step. step.
  2: { split; [frame_solve |]. split; [apply Hin'; in_cell_solve |].
       split; [now apply Hcells' | refused]. }
  step. rewrite app_nil_r.
  split; [frame_solve |]. split; [apply Hin'; in_cell_solve |].
  split; [now apply Hcells' |]. split; [exact Hrow |].
  intros black. cbn [black_glyphs app]. rewrite black_glyphs_app.
  match goal with
  | |- context [black_glyphs ?b ?h l1] => pose proof (Hm b) as Hmb
  end.
  cbn [black_glyphs] in *. lia.
Qed.

Lemma in_grid_head (start_code code : Z) (rest : list Z) (l : list op) :
  Forall (in_cell code (cell_x (cell_col start_code code))
            (cell_y (cell_row start_code code))) l ->
  Forall (in_grid start_code (code :: rest)) l.
Proof.
  apply Forall_impl. intros o Ho. exists code. split; [now left | exact Ho].
Qed.

Lemma in_grid_tail (start_code code : Z) (rest : list Z) (l : list op) :
  Forall (in_grid start_code rest) l ->
  Forall (in_grid start_code (code :: rest)) l.
Proof.
  apply Forall_impl. intros o [c [Hc Ho]]. exists c. split; [now right | exact Ho].
Qed.

(** The loop of either grid function, from the guarantee of its body. *)
Lemma for_each_spec (start_code : Z) (body : Z -> Z -> M (flow Z)) :
  (forall code n w, runs (body code n) w (cell_post start_code code n w)) ->
  forall codes n w,
    runs (for_each codes body n) w (grid_post start_code codes n w).
Proof.
  intros Hbody codes.
  induction codes as [| code rest IH]; intros n w; cbn [for_each].
  - step. split; [frame_solve |]. split; [constructor |].
    split; [cbn; lia |]. intros black. cbn. lia.
  - step. eapply runs_weaken; [apply Hbody |].
    intros l1 w1 [[m | m] | e] Hc1 (Hf1 & Hin1 & Hcells1 & Hr1).
    + destruct Hr1 as [_ Hm].
      eapply runs_weaken; [apply IH |].
      intros l2 w2 r2 Hc2 (Hf2 & Hin2 & Hcells2 & Hr2).
      split; [frame_solve |].
      split; [apply Forall_app; split;
              [now apply in_grid_head | now apply in_grid_tail] |].
      split; [rewrite cells_drawn_app; cbn [List.length]; lia |].
      destruct r2 as [m' | e].
      * intros black. rewrite black_glyphs_app, <- Hc1.
        rewrite (Hr2 (fill_after black (calls w) l1)), (Hm black). lia.
      * destruct Hr2 as [Hs | [c [Hc [He Hneg]]]]; [now left |].
        right. exists c. split; [now right | now split].
    + destruct Hr1 as [-> [-> _]].
      step. split; [frame_solve |]. split; [constructor |].
      split; [cbn; lia |]. intros black. cbn. lia.
    + split; [frame_solve |]. split; [now apply in_grid_head |].
      split; [cbn [List.length]; lia |].
      destruct Hr1 as [Hs | [He Hneg]]; [now left |].
      right. exists code. split; [now left | now split].
Qed.

Lemma draw_character_grid_spec (font_id font_name : string)
  (start_code end_code : Z) (w : world) :
  runs (draw_character_grid font_id font_name start_code end_code) w
    (grid_post start_code (grid_codes start_code end_code) 0 w).
Proof.
  apply for_each_spec. intros code n w'. apply character_cell_spec.
Qed.

Lemma draw_extended_grid_spec (font_id font_name : string)
  (start_code end_code : Z) (w : world) :
  runs (draw_extended_grid font_id font_name start_code end_code) w
    (grid_post start_code (grid_codes start_code end_code) 0 w).
Proof.
  apply for_each_spec. intros code n w'. apply extended_cell_spec.
Qed.

End Cells.

(** ** The two grids *)

Section Grids.
Context {backend : Backend}.

Lemma grid_codes_length (start_code end_code : Z) :
  (List.length (grid_codes start_code end_code) <= 224)%nat.
Proof.
  unfold grid_codes. rewrite range_length.
  change (rows * cols) with 224. lia.
Qed.

Lemma grid_codes_cell (start_code end_code code : Z) :
  In code (grid_codes start_code end_code) ->
  0 <= cell_row start_code code < 14 /\ 0 <= cell_col start_code code < 16.
Proof.
  intros Hin. apply grid_codes_In in Hin. change (rows * cols) with 224 in Hin.
  unfold cell_row, cell_col. change cols with 16.
  assert (H0 : 0 <= code - start_code < 224) by lia.
  split.
  - split; [apply Z.div_pos; lia | apply Z.div_lt_upper_bound; lia].
  - apply Z.mod_pos_bound; lia.
Qed.


(** C1: whatever range is asked for, a grid call iterates over
    [range(start, min(end + 1, start + rows * cols))], at most 224 codes,
    none of which has a row that reaches the row count (the [break] is never
    taken), and it requests at most 224 cell borders, with
    [draw_character_grid] as with [draw_extended_grid] and whatever the
    backend does. *)
Theorem grid_capacity (font_id font_name : string) (start_code end_code : Z)
  (w : world) :
  grid_codes start_code end_code =
    Py.range start_code (Z.min (end_code + 1) (start_code + rows * cols)) /\
  (List.length (grid_codes start_code end_code) <= 224)%nat /\
  Forall (fun code => cell_row start_code code < rows)
    (grid_codes start_code end_code) /\
  (exists requests,
     calls (fst (draw_character_grid font_id font_name start_code end_code w))
     = (calls w ++ requests)%list /\ (cells_drawn requests <= 224)%nat) /\
  (exists requests,
     calls (fst (draw_extended_grid font_id font_name start_code end_code w))
     = (calls w ++ requests)%list /\ (cells_drawn requests <= 224)%nat).
Proof.
  pose proof (grid_codes_length start_code end_code) as Hlen.
  split; [reflexivity |]. split; [exact Hlen |]. split.
  { apply Forall_forall. intros code Hin.
    apply grid_codes_cell in Hin. change rows with 14. lia. }
  split.
  - destruct (draw_character_grid_spec font_id font_name start_code end_code w)
      as [l [Hc (_ & _ & Hcells & _)]].
    exists l. split; [exact Hc | lia].
  - destruct (draw_extended_grid_spec font_id font_name start_code end_code w)
      as [l [Hc (_ & _ & Hcells & _)]].
    exists l. split; [exact Hc | lia].
Qed.


Lemma standard_failure_absurd (e : exn) :
  (forall history o, standard_request o = true -> accepts history o = true) ->
  standard_failure e -> False.
Proof.
  intros Hstd (o & history & _ & Ho & Hrej).
  rewrite (Hstd history o Ho) in Hrej. discriminate.
Qed.



End Grids.

(** ** Pages *)

Ltac ledger_solve :=
  unfold ledger, frame in *;
  cbn [calls clock_reads registered console page_count] in *;
  intuition congruence.

Ltac within_solve :=
  repeat (apply Forall_cons; [exact I |]); try apply Forall_nil.

Ltac silent :=
  step; apply runs_silent; [reflexivity |];
  cbn [print incr_page_count get_page_count fst snd
       calls clock_reads registered console page_count].

Section Pages.
Context {backend : Backend}.

Lemma within_page_in_grid (start_code : Z) (codes : list Z) (l : list op) :
  Forall (in_grid start_code codes) l -> Forall within_page l.
Proof.
  apply Forall_impl. intros o [code [_ Ho]]. destruct o; cbn in *; tauto.
Qed.

Lemma draw_page_header_spec (font_name : string) (page_num total_pages : Z)
  (w : world) :
  runs (draw_page_header font_name page_num total_pages) w
    (fun l w' r =>
       ledger w' w /\ Forall within_page l /\
       starts_page page_num total_pages l /\
       match r with
       | Ok _ =>
           l = header_requests font_name page_num total_pages
                 (now (clock_reads w))
       | Raise _ => True
       end).
Proof.
  unfold draw_page_header.
  assert (Hprefix : forall k,
             starts_page page_num total_pages
               (firstn k (header_requests font_name page_num total_pages
                            (now (clock_reads w))))).
  { intros k. exists font_name, (now (clock_reads w)). right. now exists k. }
  step. step.
  2: { split; [ledger_solve |]. split; [within_solve |].
       split; [apply (Hprefix 1%nat) | exact I]. }
  step. step.
  2: { split; [ledger_solve |]. split; [within_solve |].
       split; [apply (Hprefix 2%nat) | exact I]. }
  step. step.
  2: { split; [ledger_solve |]. split; [within_solve |].
       split; [apply (Hprefix 3%nat) | exact I]. }
  step. step.
  2: { split; [ledger_solve |]. split; [within_solve |].
       split; [apply (Hprefix 4%nat) | exact I]. }
  step. apply runs_silent; [reflexivity |].
  cbn [datetime_now fst snd calls clock_reads registered console page_count].
  step. step.
  2: { split; [ledger_solve |]. split; [within_solve |].
       split; [apply (Hprefix 5%nat) | exact I]. }
  step.
  - split; [ledger_solve |]. split; [within_solve |].
    split; [apply (Hprefix 6%nat) | reflexivity].
  - split; [ledger_solve |]. split; [within_solve |].
    split; [apply (Hprefix 6%nat) | exact I].
Qed.


Lemma starts_page_more (page_num total_pages : Z) (font_name stamp : string)
  (rest : list op) :
  starts_page page_num total_pages
    (header_requests font_name page_num total_pages stamp ++ rest).
Proof. exists font_name, stamp. left. now exists rest. Qed.

(** A whole page followed by the rest of the statement: whatever happens
    while the page is drawn, the requests so far are those of a page. *)
Lemma page_then {B : Type} (font_name legend : string)
  (page_num total_pages start_code : Z) (codes : list Z) (grid : M Z)
  (rest : M B) (w : world) (Q : list op -> world -> result B -> Prop) :
  (forall w0, runs grid w0 (grid_post start_code codes 0 w0)) ->
  (forall body w1 e,
      calls w1 = (calls w ++ body)%list -> ledger w1 w ->
      is_page page_num total_pages body -> Q body w1 (Raise e)) ->
  (forall body w1,
      calls w1 = (calls w ++ body)%list -> ledger w1 w ->
      is_page page_num total_pages body ->
      runs rest w1 (fun l2 w2 r2 => Q (body ++ l2)%list w2 r2)) ->
  runs (draw_page_header font_name page_num total_pages ;;
        call (SetFont "Helvetica" 9) ;;
        call (DrawString margin (page_height - 0.75 * inch)%Q legend) ;;
        _ <- grid ;;
        rest)%stmt w Q.
Proof.
  intros Hgrid Hraise Hrest.
  step. eapply runs_weaken; [apply draw_page_header_spec |].
  intros l1 w1 [[] | e] Hc1 (Hl1 & Hin1 & Hs1 & Hr1).
  2: { apply Hraise; [exact Hc1 | exact Hl1 | now split]. }
  subst l1. set (header := header_requests _ _ _ _) in *.
  step. step.
  2: { apply Hraise; [cbn [calls]; now rewrite Hc1, <- app_assoc | ledger_solve |].
       split; [apply Forall_app; split; [exact Hin1 | within_solve] |].
       apply starts_page_more. }
  step. step.
  2: { apply Hraise;
         [cbn [calls]; now rewrite Hc1, <- !app_assoc | ledger_solve |].
       split; [apply Forall_app; split; [exact Hin1 | within_solve] |].
       apply starts_page_more. }
  step. eapply runs_weaken; [apply Hgrid |].
  cbn [calls]. intros l2 w2 r2 Hc2 (Hf2 & Hin2 & _ & _).
  assert (Hpage : is_page page_num total_pages
                    (header ++ [SetFont "Helvetica" 9] ++
                     [DrawString margin (page_height - 0.75 * inch)%Q legend]
                     ++ l2)).
  { split; [| apply starts_page_more].
    apply Forall_app; split; [exact Hin1 |].
    cbn [app]. repeat (apply Forall_cons; [exact I |]).
    now apply (within_page_in_grid start_code codes). }
  assert (Hcalls : calls w2 =
                   (calls w ++ header ++ [SetFont "Helvetica" 9] ++
                    [DrawString margin (page_height - 0.75 * inch)%Q legend]
                    ++ l2)%list).
  { rewrite Hc2, Hc1, <- !app_assoc. reflexivity. }
  destruct r2 as [n | e].
  - eapply runs_weaken;
      [apply (Hrest _ w2 Hcalls); [ledger_solve | exact Hpage] |].
    intros l3 w3 r3 _ HQ. cbv beta in HQ.
    rewrite <- app_assoc in HQ. exact HQ.
  - apply Hraise; [exact Hcalls | ledger_solve | exact Hpage].
Qed.


Lemma is_page_nil (page_num total_pages : Z) : is_page page_num total_pages [].
Proof.
  split; [constructor |]. exists "", "". right. now exists 0%nat.
Qed.

Lemma paged_none (total_pages : Z) (w w' : world) :
  page_count w' = page_count w -> paged total_pages w [] w'.
Proof. intros Hp. exists []. cbn. repeat split. lia. Qed.

Lemma paged_one (total_pages : Z) (w w' : world) (body : list op) :
  page_count w' = page_count w + 1 ->
  is_page (page_count w + 1) total_pages body ->
  paged total_pages w
    ((if 1 <? page_count w + 1 then [ShowPage] else []) ++ body) w'.
Proof.
  intros Hp Hbody. exists [body]. cbn [join_pages pages_from List.length].
  rewrite app_nil_r. split; [reflexivity |]. split; [lia | tauto].
Qed.

Lemma paged_two (total_pages : Z) (w w' : world) (body1 body2 : list op) :
  0 <= page_count w ->
  page_count w' = page_count w + 1 + 1 ->
  is_page (page_count w + 1) total_pages body1 ->
  is_page (page_count w + 1 + 1) total_pages body2 ->
  paged total_pages w
    ((if 1 <? page_count w + 1 then [ShowPage] else []) ++ body1
     ++ [ShowPage] ++ body2) w'.
Proof.
  intros H0 Hp Hbody1 Hbody2. exists [body1; body2].
  cbn [join_pages pages_from List.length].
  replace (1 <? page_count w + 1 + 1) with true
    by (symmetry; apply Z.ltb_lt; lia).
  rewrite app_nil_r. split; [reflexivity |]. split; [lia | tauto].
Qed.


Lemma render_font_spec (total_fonts font_idx : Z)
  (font_name font_path : string) (w : world) :
  0 <= page_count w ->
  runs (render_font total_fonts font_idx font_name font_path) w
    (fun l w' _ => paged (total_fonts * 2) w l w').
Proof.
  intros Hpc. unfold render_font.
  step. apply runs_silent; [reflexivity |].
  cbn [getRegisteredFontNames fst snd].
  step. apply runs_quiet.
  { destruct (negb _); [| reflexivity].
    unfold registerFont. now destruct (ttfont_loads _ _). }
  { destruct (negb _); [| reflexivity].
    unfold registerFont. now destruct (ttfont_loads _ _). }
  intros w1 [[] | e] Hc1 Hp1; [| now apply paged_none].
  eapply runs_weaken with
    (Q := fun l w' (_ : result unit) => paged (total_fonts * 2) w1 l w').
  2: { intros l w' _ _ (bodies & Hl & Hp & Hb). exists bodies.
       rewrite <- Hp1. now repeat split. }
  assert (Hpc1 : 0 <= page_count w1) by lia.
  clear dependent w. rename w1 into w.
  silent. silent. silent.
  set (brk := if 1 <? page_count w + 1 then [ShowPage] else []).
  step.
  match goal with
  | |- runs _ ?w0 ?Q =>
      assert (Hbrk : forall w1,
                 calls w1 = (calls w ++ brk)%list ->
                 ledger w1 w0 -> Q brk w1 (Ok tt))
  end.
  2: { subst brk. destruct (1 <? page_count w + 1) eqn:Hfirst.
       - step.
         + apply Hbrk; [reflexivity | ledger_solve].
         + rewrite <- (app_nil_r [ShowPage]).
           replace [ShowPage] with
             (if 1 <? page_count w + 1 then [ShowPage] else [])
             by now rewrite Hfirst.
           apply paged_one; [reflexivity | apply is_page_nil].
       - step. apply Hbrk; [cbn; now rewrite app_nil_r | ledger_solve]. }
  intros w1 Hc1 Hl1.
  step. apply runs_silent; [reflexivity |].
  cbn [get_page_count fst snd]. 
  replace (page_count w1) with (page_count w + 1) by ledger_solve.
  apply (page_then font_name legend_basic (page_count w + 1)
           (total_fonts * 2) 32 (grid_codes 32 255)).
  { intros w0. apply draw_character_grid_spec. }
  { intros body w2 e Hc2 Hl2 Hpage. cbn [app].
    apply paged_one; [ledger_solve | exact Hpage]. }
  intros body1 w2 Hc2 Hl2 Hpage1.
  silent. step. step.
  2: { cbn [app].
       replace (brk ++ body1 ++ [ShowPage])%list
         with (brk ++ body1 ++ [ShowPage] ++ [])%list by reflexivity.
       apply paged_two;
         [exact Hpc1 | ledger_solve | exact Hpage1 | apply is_page_nil]. }
  step. apply runs_silent; [reflexivity |].
  cbn [get_page_count fst snd calls clock_reads registered console page_count].
  replace (page_count w2) with (page_count w + 1) by ledger_solve.
  apply (page_then font_name legend_extended (page_count w + 1 + 1)
           (total_fonts * 2) 256 (grid_codes 256 511)).
  { intros w0. apply draw_extended_grid_spec. }
  { intros body2 w3 e Hc3 Hl3 Hpage2. cbn [app].
    apply paged_two; [exact Hpc1 | ledger_solve | exact Hpage1 | exact Hpage2]. }
  intros body2 w3 Hc3 Hl3 Hpage2.
  step. cbn [app]. rewrite app_nil_r.
  apply paged_two; [exact Hpc1 | ledger_solve | exact Hpage1 | exact Hpage2].
Qed.






Lemma process_font_spec (font_dict : Dict.t) (total_fonts font_idx : Z)
  (font_name : string) (w : world) :
  0 <= page_count w ->
  runs (process_font font_dict total_fonts font_idx font_name) w
    (fun l w' r =>
       paged (total_fonts * 2) w l w' /\
       (Dict.get font_name font_dict <> None -> r = Ok tt)).
Proof.
  intros Hpc. unfold process_font, Dict.subscript.
  step. step.
  destruct (Dict.get font_name font_dict) as [font_path |].
  2: { split; [now apply paged_none | congruence]. }
  step. eapply runs_weaken; [now apply render_font_spec |].
  intros l1 w1 [[] | e] Hc1 Hpaged; cbn [app].
  - now split.
  - apply runs_silent; [reflexivity |]. rewrite app_nil_r.
    split; [| reflexivity].
    destruct Hpaged as (bodies & Hl & Hp & Hb). now exists bodies.
Qed.



End Pages.

(** ** One font after another *)

Section Fonts.
Context {backend : Backend}.

(** C5, amended: a font that has a path never stops the loop: the pass
    through the loop ends normally and the loop goes on with the next font.
    When registering or rendering raised, the error line is printed and
    nothing else changes.  When it is the registration that raised, no
    request was sent for the font and [page_count] did not move.  In every
    case what was sent for the font is a sequence of pages (possibly cut
    short) whose headers show the total [total_fonts * 2]. *)
Theorem font_failure_is_isolated (font_dict : Dict.t)
  (total_fonts font_idx : Z) (font_name font_path : string)
  (rest : list string) (w : world)
  (Hpath : Dict.get font_name font_dict = Some font_path)
  (Hpc : 0 <= page_count w) :
  let tried := render_font total_fonts font_idx font_name font_path w in
  let done := process_font font_dict total_fonts font_idx font_name w in
  snd done = Ok tt /\
  fonts_loop font_dict total_fonts font_idx (font_name :: rest) w =
    fonts_loop font_dict total_fonts (font_idx + 1) rest (fst done) /\
  (forall e,
      snd tried = Raise e ->
      console (fst done) =
        (console (fst tried)
         ++ [("  ERROR processing " ++ font_name ++ ": " ++ message e)%string])%list
      /\
      calls (fst done) = calls (fst tried) /\
      page_count (fst done) = page_count (fst tried)) /\
  (existsb (String.eqb (font_id_of font_name)) (registered w) = false ->
   ttfont_loads (font_id_of font_name) font_path = false ->
   snd tried = Raise (TTFError (font_id_of font_name) font_path) /\
   calls (fst done) = calls w /\ page_count (fst done) = page_count w) /\
  (exists requests,
      calls (fst done) = (calls w ++ requests)%list /\
      paged (total_fonts * 2) w requests (fst done)).
Proof.
  intros tried done.
  assert (Hdone : done =
            match tried with
            | (w1, Ok a) => (w1, Ok a)
            | (w1, Raise e) =>
                print ("  ERROR processing " ++ font_name ++ ": " ++ message e)
                  w1
            end).
  { subst done tried. unfold process_font, Dict.subscript, bind, lift, try_except.
    now rewrite Hpath. }
  assert (Hok : snd done = Ok tt).
  { rewrite Hdone. destruct tried as [w1 [[] | e]]; reflexivity. }
  split; [exact Hok |]. split; [| split; [| split]].
  - cbn [fonts_loop]. unfold bind at 1. fold done.
    destruct done as [w1 r]. cbn [fst snd] in *. now rewrite Hok.
  - intros e He. rewrite Hdone.
    destruct tried as [w1 r]. cbn [snd] in He. subst r. cbn. auto.
  - intros Hnew Hload.
    assert (Htried : tried = (w, Raise (TTFError (font_id_of font_name) font_path))).
    { subst tried. unfold render_font, bind, getRegisteredFontNames, registerFont.
      now rewrite Hnew, Hload. }
    rewrite Hdone, Htried. cbn. auto.
  - destruct (process_font_spec font_dict total_fonts font_idx font_name w Hpc)
      as [l [Hc [Hpaged _]]].
    exists l. now split.
Qed.

End Fonts.

(** C5 as stated fails: with a backend that refuses page breaks, rendering
    the only font raises at the break before its second page; its first
    page, 224 cells under the header of page 1 of 2, stays in the document
    and [page_count] is 2. *)
Lemma rendering_failure_keeps_first_page :
  let w := fst (process_font (backend := no_page_break)
                  [("A", "A.ttf")] 1 0 "A" blank_world) in
  snd (render_font (backend := no_page_break) 1 0 "A" "A.ttf" blank_world)
    = Raise (BackendError ShowPage) /\
  cells_drawn (calls w) = 224%nat /\ page_count w = 2 /\
  nth_error (calls w) 3 =
    Some (DrawString (page_width - 2 * inch)%Q (page_height - 0.3 * inch)%Q
            "Page 1 of 2").
Proof. vm_compute. repeat split. Qed.

Section Main.
Context {backend : Backend} {host : Host}.

(** C7: when the scan finds no font, the script ends with status 1 and has
    sent no request to the backend: the canvas is never constructed, and
    nothing is saved. *)
Theorem no_fonts_no_pdf (w : world)
  (Hnone : fst (scan_dirs arcgis_font_dirs) = []) :
  exit_status (snd (main w)) = 1 /\ calls (fst (main w)) = calls w.
Proof.
  unfold main.
  destruct (negb all_installed); [now split |].
  unfold bind at 1.
  destruct (negb _).
  - unfold makedirs. destruct (makedirs_ok output_dir); [| now split].
    rewrite Hnone. now split.
  - cbn [ret]. rewrite Hnone. now split.
Qed.

End Main.

Lemma no_fonts_no_pdf_witness :
  fst (scan_dirs (host := bare_host) (arcgis_font_dirs (host := bare_host)))
    = [] /\
  exit_status (snd (main (backend := no_page_break) (host := bare_host)
                      blank_world)) = 1 /\
  calls (fst (main (backend := no_page_break) (host := bare_host)
                blank_world)) = [].
Proof.
  split; [reflexivity |].
  exact (no_fonts_no_pdf (backend := no_page_break) (host := bare_host)
           blank_world eq_refl).
Defined.

(** ** The font locator *)

Section Dicts.

Lemma dict_get_set_same (key value : string) (d : Dict.t) :
  Dict.get key (Dict.set key value d) = Some value.
Proof.
  induction d as [| [k v] d IH]; cbn.
  - now rewrite String.eqb_refl.
  - destruct (String.eqb key k) eqn:E; cbn; now rewrite E.
Qed.

Lemma dict_get_set_other (key key' value : string) (d : Dict.t) :
  key <> key' -> Dict.get key (Dict.set key' value d) = Dict.get key d.
Proof.
  intros Hne. induction d as [| [k v] d IH]; cbn.
  - now apply String.eqb_neq in Hne as ->.
  - destruct (String.eqb_spec key' k) as [-> | Hk]; cbn.
    + now apply String.eqb_neq in Hne as ->.
    + now rewrite IH.
Qed.

Lemma dict_get_keys (key : string) (d : Dict.t) :
  Dict.get key d <> None <-> In key (Dict.keys d).
Proof.
  induction d as [| [k v] d IH]; cbn.
  - tauto.
  - destruct (String.eqb_spec key k) as [-> | Hk].
    + split; [auto | discriminate].
    + rewrite IH. split; [auto | intros [Heq | Hin]; [congruence | exact Hin]].
Qed.

Lemma dict_set_new_keys (key value : string) (d : Dict.t) :
  Dict.get key d = None ->
  Dict.keys (Dict.set key value d) = (Dict.keys d ++ [key])%list.
Proof.
  unfold Dict.keys.
  induction d as [| [k v] d IH]; cbn; [reflexivity |].
  destruct (String.eqb key k); [discriminate |].
  intros Hget. cbn. now rewrite (IH Hget).
Qed.

End Dicts.

Section LocatorFacts.
Context {host : Host}.

Lemma scan_files_candidates (root : string) (files : list string) :
  forall font_dict,
    fold_left (scan_file root) files font_dict =
    fold_left add_candidate
      (map (fun file => (fst (splitext file), path_join root file))
         (filter is_font_file files)) font_dict.
Proof.
  induction files as [| file files IH]; intros font_dict; cbn [fold_left filter].
  - reflexivity.
  - rewrite IH. unfold scan_file at 1.
    destruct (is_font_file file); reflexivity.
Qed.

Lemma scan_walk_candidates (walked : list (string * list string * list string)) :
  forall font_dict,
    scan_walk font_dict walked =
    fold_left add_candidate (candidates_of_walk walked) font_dict.
Proof.
  unfold scan_walk, candidates_of_walk.
  induction walked as [| [[root dirs] files] walked IH]; intros font_dict.
  - reflexivity.
  - cbn [fold_left flat_map]. rewrite fold_left_app, IH.
    now rewrite scan_files_candidates.
Qed.

Lemma scan_dirs_fold (font_dirs : list string) :
  forall (font_dict : Dict.t) (found : bool),
    fst (fold_left
           (fun state font_dir =>
              match stat font_dir with
              | Some n => (scan_walk (fst state) (walk font_dir n), true)
              | None => state
              end) font_dirs (font_dict, found)) =
    fold_left add_candidate (candidates font_dirs) font_dict.
Proof.
  unfold candidates.
  induction font_dirs as [| font_dir font_dirs IH]; intros font_dict found.
  - reflexivity.
  - cbn [fold_left flat_map].
    destruct (stat font_dir) as [n |].
    + rewrite IH, fold_left_app. cbn [fst]. now rewrite scan_walk_candidates.
    + rewrite IH. reflexivity.
Qed.

Lemma scan_dirs_candidates (font_dirs : list string) :
  fst (scan_dirs font_dirs) =
  fold_left add_candidate (candidates font_dirs) [].
Proof. apply scan_dirs_fold. Qed.

(** First found wins: the dictionary answers as the first candidate of
    that name, unless it already had the name. *)
Lemma add_candidates_get (cands : list (string * string)) :
  forall font_dict name,
    Dict.get name (fold_left add_candidate cands font_dict) =
    match Dict.get name font_dict with
    | Some path => Some path
    | None => Dict.get name cands
    end.
Proof.
  induction cands as [| [n p] cands IH]; intros font_dict name;
    cbn [fold_left].
  - cbn. now destruct (Dict.get name font_dict).
  - rewrite IH. unfold add_candidate, Dict.mem. cbn [fst snd Dict.get].
    destruct (Dict.get n font_dict) as [old |] eqn:Hn; cbn [negb].
    + destruct (String.eqb_spec name n) as [-> | Hne].
      * now rewrite Hn.
      * reflexivity.
    + destruct (String.eqb_spec name n) as [-> | Hne].
      * now rewrite dict_get_set_same, Hn.
      * now rewrite dict_get_set_other.
Qed.

Lemma add_candidates_NoDup (cands : list (string * string)) :
  forall font_dict,
    NoDup (Dict.keys font_dict) ->
    NoDup (Dict.keys (fold_left add_candidate cands font_dict)).
Proof.
  induction cands as [| [n p] cands IH]; intros font_dict Hnd;
    cbn [fold_left]; [exact Hnd |].
  apply IH. unfold add_candidate, Dict.mem. cbn [fst snd].
  destruct (Dict.get n font_dict) as [old |] eqn:Hn; cbn [negb];
    [exact Hnd |].
  rewrite dict_set_new_keys by exact Hn.
  apply NoDup_app; [exact Hnd | repeat constructor; cbn; tauto |].
  intros x Hx [<- | []]. apply dict_get_keys in Hx. congruence.
Qed.

End LocatorFacts.

Section StringFacts.

Lemma substring_0_app (a b : string) : substring 0 (length a) (a ++ b) = a.
Proof.
  induction a as [| c a IH]; cbn.
  - now destruct b.
  - now rewrite IH.
Qed.

Lemma substring_skip_app (a b : string) (k : nat) :
  substring (length a) k (a ++ b) = substring 0 k b.
Proof. induction a as [| c a IH]; cbn; [reflexivity | exact IH]. Qed.

Lemma substring_0_all (s : string) : substring 0 (length s) s = s.
Proof. induction s as [| c s IH]; cbn; [reflexivity | now rewrite IH]. Qed.

(** A string is its first [i] characters followed by the others. *)
Lemma string_split_at (s : string) :
  forall i, (i <= length s)%nat ->
    s = substring 0 i s ++ substring i (length s - i) s.
Proof.
  induction s as [| c s IH]; intros i Hi.
  - cbn in Hi. assert (i = 0%nat) as -> by lia. reflexivity.
  - destruct i as [| i].
    + cbn [substring length Nat.sub append]. now rewrite substring_0_all.
    + cbn [substring length Nat.sub append]. f_equal. apply IH. cbn in Hi. lia.
Qed.

Lemma substring_length (s : string) :
  forall i k, (i + k <= length s)%nat -> length (substring i k s) = k.
Proof.
  induction s as [| c s IH]; intros i k Hik.
  - cbn in Hik. assert (i = 0%nat) as -> by lia.
    assert (k = 0%nat) as -> by lia. reflexivity.
  - destruct i as [| i]; destruct k as [| k]; cbn in *; try reflexivity.
    + now rewrite IH by lia.
    + apply IH. lia.
    + apply IH. lia.
Qed.

Lemma lower_length (s : string) : length (Py.lower s) = length s.
Proof. induction s as [| c s IH]; cbn; [reflexivity | now rewrite IH]. Qed.

Lemma lower_app (a b : string) :
  Py.lower (a ++ b) = Py.lower a ++ Py.lower b.
Proof. induction a as [| c a IH]; cbn; [reflexivity | now rewrite IH]. Qed.

Lemma lower_substring (s : string) :
  forall i k, Py.lower (substring i k s) = substring i k (Py.lower s).
Proof.
  induction s as [| c s IH]; intros i k.
  - destruct i, k; reflexivity.
  - destruct i as [| i]; destruct k as [| k]; cbn; try reflexivity.
    + now rewrite IH.
    + apply IH.
    + apply IH.
Qed.

Lemma endswith_iff (s suffix : string) :
  Py.endswith s suffix = true <-> exists pre, s = pre ++ suffix.
Proof.
  unfold Py.endswith. split.
  - intros H. apply andb_prop in H as [Hlen Heq].
    apply Nat.leb_le in Hlen. apply String.eqb_eq in Heq.
    exists (substring 0 (length s - length suffix) s).
    pose proof (string_split_at s (length s - length suffix) ltac:(lia))
      as Hsplit.
    replace (length s - (length s - length suffix))%nat
      with (length suffix) in Hsplit by lia.
    now rewrite Heq in Hsplit.
  - intros [pre ->]. rewrite string_app_length.
    replace (length pre + length suffix - length suffix)%nat
      with (length pre) by lia.
    rewrite substring_skip_app, substring_0_all, String.eqb_refl.
    replace (length suffix <=? length pre + length suffix)%nat with true
      by (symmetry; apply Nat.leb_le; lia).
    reflexivity.
Qed.

(** A file name ends, in any letter case, with [suffix] exactly when it is
    a stem followed by an extension that lower-cases to [suffix]. *)
Lemma endswith_lower_iff (file suffix : string) :
  Py.endswith (Py.lower file) suffix = true <->
  exists stem ext, file = stem ++ ext /\ Py.lower ext = suffix.
Proof.
  split.
  - intros H. unfold Py.endswith in H. apply andb_prop in H as [Hlen Heq].
    apply Nat.leb_le in Hlen. apply String.eqb_eq in Heq.
    rewrite lower_length in *.
    exists (substring 0 (length file - length suffix) file),
           (substring (length file - length suffix) (length suffix) file).
    split.
    + pose proof (string_split_at file (length file - length suffix)
                    ltac:(lia)) as Hsplit.
      replace (length file - (length file - length suffix))%nat
        with (length suffix) in Hsplit by lia.
      exact Hsplit.
    + now rewrite lower_substring.
  - intros (stem & ext & -> & <-). rewrite lower_app.
    apply endswith_iff. now exists (Py.lower stem).
Qed.

Lemma is_dot_lower (c : ascii) : is_dot (Py.lower_ascii c) = is_dot c.
Proof.
  destruct c as [[] [] [] [] [] [] [] []]; reflexivity.
Qed.

Lemma rfind_dot_app (s1 s2 : string) :
  rfind_dot (s1 ++ s2) =
  match rfind_dot s2 with
  | Some i => Some (length s1 + i)%nat
  | None => rfind_dot s1
  end.
Proof.
  induction s1 as [| c s1 IH]; cbn.
  - now destruct (rfind_dot s2).
  - rewrite IH. destruct (rfind_dot s2); [reflexivity |].
    now destruct (rfind_dot s1).
Qed.

Lemma rfind_dot_lower (s : string) : rfind_dot (Py.lower s) = rfind_dot s.
Proof.
  induction s as [| c s IH]; cbn; [reflexivity |].
  now rewrite IH, is_dot_lower.
Qed.

Lemma font_extension_dot (ext : string) :
  font_extension ext -> rfind_dot ext = Some 0%nat /\ length ext = 4%nat.
Proof.
  intros Hext. rewrite <- rfind_dot_lower, <- (lower_length ext).
  destruct Hext as [-> | ->]; now split.
Qed.

(** The derived name: the stem, unless the stem is nothing but dots. *)
Lemma splitext_font_file (stem ext : string) :
  font_extension ext ->
  fst (splitext (stem ++ ext)) = if all_dots stem then stem ++ ext else stem.
Proof.
  intros Hext. apply font_extension_dot in Hext as [Hdot _].
  unfold splitext. rewrite rfind_dot_app, Hdot, Nat.add_0_r, substring_0_app.
  now destruct (all_dots stem).
Qed.

Lemma is_font_file_iff (file : string) :
  is_font_file file = true <->
  exists stem ext, file = stem ++ ext /\ font_extension ext.
Proof.
  unfold is_font_file, font_extension. rewrite orb_true_iff, !endswith_lower_iff.
  split.
  - intros [(stem & ext & H1 & H2) | (stem & ext & H1 & H2)];
      exists stem, ext; auto.
  - intros (stem & ext & H1 & [H2 | H2]); [left | right];
      now exists stem, ext.
Qed.

End StringFacts.

Section Sorting.

Lemma insert_sorted_perm (name : string) (names : list string) :
  Permutation (insert_sorted name names) (name :: names).
Proof.
  induction names as [| n names IH]; cbn; [reflexivity |].
  destruct (String.leb name n); [reflexivity |].
  rewrite IH. apply perm_swap.
Qed.

Lemma sorted_perm (names : list string) : Permutation (sorted names) names.
Proof.
  induction names as [| n names IH]; cbn; [constructor |].
  rewrite insert_sorted_perm. now constructor.
Qed.

Lemma insert_sorted_hd (name n : string) (names : list string) :
  String.leb n name = true ->
  HdRel (fun a b => String.leb a b = true) n names ->
  HdRel (fun a b => String.leb a b = true) n (insert_sorted name names).
Proof.
  intros Hle Hhd. destruct names as [| m names]; cbn.
  - now constructor.
  - destruct (String.leb name m); constructor; [exact Hle |].
    now inversion Hhd.
Qed.

Lemma insert_sorted_sorted (name : string) (names : list string) :
  Sorted (fun a b => String.leb a b = true) names ->
  Sorted (fun a b => String.leb a b = true) (insert_sorted name names).
Proof.
  induction names as [| n names IH]; intros Hs; cbn.
  - repeat constructor.
  - destruct (String.leb name n) eqn:Hle.
    + constructor; [exact Hs | now constructor].
    + inversion Hs as [| ? ? Hs' Hhd]; subst.
      constructor; [now apply IH |].
      apply insert_sorted_hd; [| exact Hhd].
      destruct (String.leb_total name n) as [H | H]; [congruence | exact H].
Qed.

Lemma sorted_sorted (names : list string) :
  Sorted (fun a b => String.leb a b = true) (sorted names).
Proof.
  induction names as [| n names IH]; cbn; [constructor |].
  now apply insert_sorted_sorted.
Qed.

End Sorting.

Section LocatorTheorems.
Context {host : Host}.

(** C6, amended: the dictionary answers for a name with the first
    candidate of that name, candidates being the font files of the existing
    directories in list order and walk order; its names are distinct; a file
    is a font file exactly when it is a stem followed by an extension that
    lower-cases to .ttf or .otf; its name is the stem, except that a file
    whose stem is nothing but dots keeps its whole name; the names are
    iterated in ascending order, each once. *)
Theorem font_locator_first_found_wins (font_dirs : list string) :
  let font_dict := fst (scan_dirs font_dirs) in
  (forall name,
      Dict.get name font_dict = Dict.get name (candidates font_dirs)) /\
  NoDup (Dict.keys font_dict) /\
  (forall file,
      is_font_file file = true <->
      exists stem ext, file = stem ++ ext /\ font_extension ext) /\
  (forall stem ext,
      font_extension ext ->
      fst (splitext (stem ++ ext)) =
        if all_dots stem then stem ++ ext else stem) /\
  Sorted (fun a b => String.leb a b = true) (fonts_of font_dict) /\
  Permutation (fonts_of font_dict) (Dict.keys font_dict).
Proof.
  intros font_dict. subst font_dict. rewrite scan_dirs_candidates.
  split; [| split; [| split; [| split; [| split]]]].
  - intros name. now rewrite add_candidates_get.
  - apply add_candidates_NoDup. constructor.
  - apply is_font_file_iff.
  - apply splitext_font_file.
  - apply sorted_sorted.
  - apply sorted_perm.
Qed.

End LocatorTheorems.

(** C6 as stated fails: a file named [.ttf] is selected, and its entry is
    named [.ttf], the extension not stripped. *)
Lemma dot_file_keeps_its_extension :
  fst (scan_dirs (host := dot_file_host) ["fonts"]) = [(".ttf", "fonts\.ttf")]
  /\ is_font_file ".ttf" = true /\ splitext ".ttf" = (".ttf", "").
Proof. now repeat split. Qed.

Example first_directory_wins :
  fst (scan_dirs (host := two_dirs_host) ["first"; "missing"; "second"]) =
    [("Foo", "first\Foo.ttf"); ("Bar", "first\sub\Bar.TTF");
     ("Abc", "second\Abc.otf")] /\
  fonts_of (fst (scan_dirs (host := two_dirs_host)
                   ["first"; "missing"; "second"])) = ["Abc"; "Bar"; "Foo"].
Proof. now split. Qed.

(** ** Instances *)

(** A backend that draws no glyph but the letter A. *)
Lemma only_letter_A_standard :
  forall history o,
    standard_request o = true ->
    accepts (Backend := only_letter_A) history o = true.
Proof.
  intros history o Ho. destruct o; try reflexivity.
  cbn in *. now rewrite Ho.
Qed.


Lemma font_failure_is_isolated_witness :
  Dict.get "A" [("A", "A.ttf")] = Some "A.ttf" /\
  0 <= page_count blank_world /\
  snd (process_font (backend := no_page_break) [("A", "A.ttf")] 1 0 "A"
         blank_world) = Ok tt.
Proof.
  split; [reflexivity |]. split; [discriminate |].
  exact (proj1 (font_failure_is_isolated (backend := no_page_break)
                  [("A", "A.ttf")] 1 0 "A" "A.ttf" [] blank_world eq_refl
                  ltac:(discriminate))).
Defined.

(** Two cells drawn by a backend that has no glyph but A: the cell of 65
    gets its glyph, the cell of 66, one column to the right, the dash. *)
Example two_cells :
  let log := calls (fst (draw_character_grid (backend := only_letter_A)
                           "F" "F" 65 66 blank_world)) in
  List.length log = 29%nat /\
  nth_error log 1 =
    Some (Rect (cell_x 0) (cell_y 0 - cell_size)%Q cell_size cell_size) /\
  nth_error log 4 =
    Some (DrawString (cell_x 0 + 0.03 * inch)%Q (cell_y 0 - 0.12 * inch)%Q "A")
  /\
  nth_error log 11 =
    Some (DrawCentredString (cell_x 0 + cell_size / 2)%Q
            (cell_y 0 - cell_size + 0.15 * inch)%Q "A") /\
  nth_error log 14 =
    Some (Rect (cell_x 1) (cell_y 0 - cell_size)%Q cell_size cell_size) /\
  nth_error log 24 =
    Some (DrawCentredString (cell_x 1 + cell_size / 2)%Q
            (cell_y 0 - cell_size + 0.15 * inch)%Q "B") /\
  nth_error log 27 =
    Some (DrawCentredString (cell_x 1 + cell_size / 2)%Q
            (cell_y 0 - cell_size + 0.15 * inch)%Q "—") /\
  snd (draw_character_grid (backend := only_letter_A) "F" "F" 65 66
         blank_world) = Ok 1.
Proof. vm_compute. repeat split. Qed.

(** The seventeenth cell of the basic page starts the second row. *)
Example second_row :
  nth_error (calls (fst (draw_character_grid (backend := no_page_break)
                           "F" "F" 32 255 blank_world))) 209 =
    Some (Rect (cell_x 0) (cell_y 1 - cell_size)%Q cell_size cell_size).
Proof. vm_compute. reflexivity. Qed.

(* ================================================================= *)
(** * Further properties of the script *)

(** ** Numerals, labels and identifiers *)

Section NumeralBounds.

Lemma digit_value_range (c : ascii) (d : Z) :
  digit_value c = Some d -> 0 <= d < 16.
Proof.
  unfold digit_value. intros H.
  destruct ((48 <=? Z.of_N (N_of_ascii c)) && (Z.of_N (N_of_ascii c) <=? 57))
    eqn:H1.
  - injection H as <-. bool_to_Z. lia.
  - destruct ((65 <=? Z.of_N (N_of_ascii c)) && (Z.of_N (N_of_ascii c) <=? 70))
      eqn:H2; [| discriminate].
    injection H as <-. bool_to_Z. lia.
Qed.

(** A numeral of [k] digits denotes a number below [base ^ k]. *)
Lemma value_from_bound (base : Z) (s : string) :
  1 <= base ->
  forall acc v,
    0 <= acc -> value_from base acc s = Some v ->
    acc * base ^ Z.of_nat (length s) <= v
      < (acc + 1) * base ^ Z.of_nat (length s).
Proof.
  intros Hbase. induction s as [| c s IH]; intros acc v Hacc Hv.
  - cbn in *. injection Hv as <-. lia.
  - cbn [value_from] in Hv.
    destruct (digit_value c) as [d |] eqn:Hd; [| discriminate].
    apply digit_value_range in Hd.
    destruct (Z.ltb_spec d base) as [Hlt | Hge]; [| discriminate].
    apply IH in Hv; [| nia].
    cbn [length]. rewrite Nat2Z.inj_succ, Z.pow_succ_r by lia.
    assert (Hpow : 0 < base ^ Z.of_nat (length s))
      by (apply Z.pow_pos_nonneg; lia).
    nia.
Qed.

Lemma numeral_value_bound (base : Z) (s : string) (n : Z) :
  1 <= base -> numeral_value base s = Some n ->
  0 <= n < base ^ Z.of_nat (length s).
Proof.
  intros Hbase Hn. unfold numeral_value in Hn.
  destruct s as [| c s]; [discriminate |].
  apply value_from_bound in Hn; lia.
Qed.

(** A number from [base ^ k] on has more than [k] digits. *)
Lemma digits_long (base n : Z) (k : nat) :
  2 <= base <= 16 -> base ^ Z.of_nat k <= n ->
  (k < length (Py.digits base n))%nat.
Proof.
  intros Hbase Hn.
  assert (H0 : 0 <= n).
  { assert (0 < base ^ Z.of_nat k) by (apply Z.pow_pos_nonneg; lia). lia. }
  pose proof (numeral_value_bound base _ n ltac:(lia)
                (digits_value base n Hbase H0)) as [_ Hlt].
  destruct (Nat.lt_ge_cases k (length (Py.digits base n))) as [Hk | Hk];
    [exact Hk | exfalso].
  assert (base ^ Z.of_nat (length (Py.digits base n)) <= base ^ Z.of_nat k)
    by (apply Z.pow_le_mono_r; lia).
  lia.
Qed.

Lemma digit_value_minus : digit_value "-" = None.
Proof. reflexivity. Qed.

Lemma str_negative_no_numeral (n : Z) :
  n < 0 -> numeral_value 10 (Py.str n) = None.
Proof.
  intros Hn. unfold Py.str.
  replace (n <? 0) with true by (symmetry; apply Z.ltb_lt; lia).
  reflexivity.
Qed.

(** From [16 ^ width] on the format is the bare numeral. *)
Lemma format_0X_wide (width : nat) (n : Z) :
  16 ^ Z.of_nat width <= n ->
  Py.format_0X width n = Py.digits 16 n /\
  (width < length (Py.digits 16 n))%nat.
Proof.
  intros Hge.
  pose proof (digits_long 16 n width ltac:(lia) Hge) as Hlong.
  assert (H0 : 0 < 16 ^ Z.of_nat width) by (apply Z.pow_pos_nonneg; lia).
  split; [| exact Hlong].
  unfold Py.format_0X.
  replace (n <? 0) with false by (symmetry; apply Z.ltb_ge; lia).
  rewrite Z.abs_eq by lia.
  replace (width - length (Py.digits 16 n))%nat with 0%nat by lia.
  reflexivity.
Qed.

Lemma format_0X_value (width : nat) (n : Z) :
  (0 < width)%nat -> 0 <= n ->
  numeral_value 16 (Py.format_0X width n) = Some n.
Proof.
  intros Hwidth Hn. destruct width as [| width]; [lia | clear Hwidth].
  destruct (Z.lt_ge_cases n (16 ^ Z.of_nat (S width))) as [Hlt | Hge].
  - now apply format_0X_spec.
  - destruct (format_0X_wide (S width) n Hge) as [-> _].
    apply digits_value; lia.
Qed.

End NumeralBounds.

(** X13: the zero-filled uppercase hexadecimal format never cuts a number
    short.  For a non-negative number the text always denotes the number,
    has at least [width] characters, and has exactly [width] of them if and
    only if the number is below [16 ^ width]: from there on the text is
    wider than asked.  So the hex line has two digits exactly for the codes
    up to 255, and the U+ label four exactly for the codes up to 65535. *)
Theorem hex_format_widens (width : nat) (n : Z) :
  (0 < width)%nat -> 0 <= n ->
  numeral_value 16 (Py.format_0X width n) = Some n /\
  (width <= length (Py.format_0X width n))%nat /\
  (length (Py.format_0X width n) = width <-> n < 16 ^ Z.of_nat width).
Proof.
  intros Hwidth Hn. split; [now apply format_0X_value |].
  destruct width as [| width]; [lia | clear Hwidth].
  destruct (Z.lt_ge_cases n (16 ^ Z.of_nat (S width))) as [Hlt | Hge].
  - destruct (format_0X_spec width n ltac:(lia)) as [Hlen _].
    split; [lia | tauto].
  - destruct (format_0X_wide (S width) n Hge) as [-> Hlong]. split; lia.
Qed.

Lemma hex_format_widens_witness :
  (0 < 2)%nat /\ 0 <= 300 /\
  numeral_value 16 (Py.format_0X 2 300) = Some 300 /\
  Py.format_0X 2 300 = "12C".
Proof.
  split; [lia |]. split; [lia |].
  split; [| reflexivity].
  exact (proj1 (hex_format_widens 2 300 ltac:(lia) ltac:(lia))).
Defined.

(** X14: the texts of a cell identify its code.  Two codes with the same
    decimal line are the same code, whatever their sign; two non-negative
    codes with the same hex line, or with the same U+ label, are the same
    code. *)
Theorem lines_identify_the_code (a b : Z) :
  (decimal_line a = decimal_line b -> a = b) /\
  (0 <= a -> 0 <= b -> hex_line a = hex_line b -> a = b) /\
  (0 <= a -> 0 <= b -> unicode_label a = unicode_label b -> a = b).
Proof.
  split; [| split].
  - unfold decimal_line. intros Heq.
    destruct (Z.lt_ge_cases a 0) as [Ha | Ha], (Z.lt_ge_cases b 0) as [Hb | Hb].
    + unfold Py.str in Heq.
      replace (a <? 0) with true in Heq by (symmetry; apply Z.ltb_lt; lia).
      replace (b <? 0) with true in Heq by (symmetry; apply Z.ltb_lt; lia).
      injection Heq as Heq.
      pose proof (digits_value 10 (- a) ltac:(lia) ltac:(lia)) as Hva.
      pose proof (digits_value 10 (- b) ltac:(lia) ltac:(lia)) as Hvb.
      rewrite Heq in Hva. rewrite Hva in Hvb. injection Hvb as Hvb. lia.
    + pose proof (str_negative_no_numeral a Ha) as Hna.
      pose proof (str_value b Hb) as Hvb. congruence.
    + pose proof (str_negative_no_numeral b Hb) as Hnb.
      pose proof (str_value a Ha) as Hva. congruence.
    + pose proof (str_value a Ha) as Hva.
      pose proof (str_value b Hb) as Hvb. congruence.
  - unfold hex_line. intros Ha Hb Heq. injection Heq as Heq.
    pose proof (format_0X_value 2 a ltac:(lia) Ha) as Hva.
    pose proof (format_0X_value 2 b ltac:(lia) Hb) as Hvb.
    congruence.
  - unfold unicode_label. intros Ha Hb Heq. cbn [append] in Heq.
    injection Heq as Heq.
    pose proof (format_0X_value 4 a ltac:(lia) Ha) as Hva.
    pose proof (format_0X_value 4 b ltac:(lia) Hb) as Hvb.
    congruence.
Qed.

Lemma key_label_high (code : Z) :
  128 <= code -> key_label code = Ok (unicode_label code).
Proof.
  intros Hc. unfold key_label, special_chars. cbn [lookup_code].
  repeat match goal with
         | |- context [code =? ?k] =>
             destruct (Z.eqb_spec code k) as [Heq | _]; [lia |]
         end.
  replace (48 <=? code) with true by (symmetry; apply Z.leb_le; lia).
  replace (code <=? 57) with false by (symmetry; apply Z.leb_gt; lia).
  replace (65 <=? code) with true by (symmetry; apply Z.leb_le; lia).
  replace (code <=? 90) with false by (symmetry; apply Z.leb_gt; lia).
  replace (97 <=? code) with true by (symmetry; apply Z.leb_le; lia).
  replace (code <=? 122) with false by (symmetry; apply Z.leb_gt; lia).
  replace (code <? 127) with false by (symmetry; apply Z.ltb_ge; lia).
  reflexivity.
Qed.

(** X12: from code 65536 on the key label is cut.  The label computed is U+
    and five or more hexadecimal digits, seven characters at least, so the
    test [len(key_label) > 6] holds and what is drawn is U+, the three
    leading digits and a period: six characters, not the label, and the
    same text for codes that share those three digits. *)
Theorem long_labels_are_cut (code : Z) :
  65536 <= code ->
  key_label code = Ok (unicode_label code) /\
  (6 < length (unicode_label code))%nat /\
  truncate_label (unicode_label code) =
    "U+" ++ substring 0 3 (Py.digits 16 code) ++ "." /\
  length (truncate_label (unicode_label code)) = 6%nat /\
  truncate_label (unicode_label code) <> unicode_label code.
Proof.
  intros Hc.
  destruct (format_0X_wide 4 code Hc) as [Hfmt Hlong].
  assert (Hlabel : unicode_label code = "U+" ++ Py.digits 16 code)
    by (unfold unicode_label; now rewrite Hfmt).
  assert (Hlen : (6 < length (unicode_label code))%nat)
    by (rewrite Hlabel; cbn [append length]; lia).
  assert (Hcut : truncate_label (unicode_label code) =
                 "U+" ++ substring 0 3 (Py.digits 16 code) ++ ".").
  { unfold truncate_label.
    replace (6 <? length (unicode_label code))%nat with true
      by (symmetry; apply Nat.ltb_lt; exact Hlen).
    rewrite Hlabel. reflexivity. }
  assert (Hlen' : length (truncate_label (unicode_label code)) = 6%nat).
  { rewrite Hcut. cbn [append length]. rewrite string_app_length.
    rewrite substring_length by (cbn [Nat.add]; lia). reflexivity. }
  split; [apply key_label_high; lia |].
  split; [exact Hlen |]. split; [exact Hcut |]. split; [exact Hlen' |].
  intros Heq. rewrite Heq in Hlen'. lia.
Qed.

Lemma long_labels_are_cut_witness :
  65536 <= 66000 /\
  truncate_label (unicode_label 66000) = "U+101." /\
  truncate_label (unicode_label 66001) = "U+101.".
Proof.
  split; [discriminate |]. split; [| reflexivity].
  destruct (long_labels_are_cut 66000 ltac:(discriminate))
    as (_ & _ & Hcut & _).
  exact Hcut.
Defined.

Section FontIds.

Lemma font_id_of_cons (c : ascii) (font_name : string) :
  font_id_of (String c font_name) = String (id_char c) (font_id_of font_name).
Proof.
  unfold font_id_of, id_char. cbn [Py.replace_char].
  destruct (Ascii.eqb_spec c " ") as [-> | Hs]; [reflexivity |].
  destruct (Ascii.eqb_spec c "-") as [-> | Hh]; [reflexivity |].
  destruct (Ascii.eqb_spec c ".") as [-> | Hd]; reflexivity.
Qed.

Lemma id_char_idempotent (c : ascii) : id_char (id_char c) = id_char c.
Proof.
  unfold id_char.
  destruct (Ascii.eqb c " " || Ascii.eqb c "-" || Ascii.eqb c ".")%bool eqn:E;
    [reflexivity | now rewrite E].
Qed.

Lemma id_char_clean (c : ascii) :
  id_char c <> " "%char /\ id_char c <> "-"%char /\ id_char c <> "."%char.
Proof.
  unfold id_char.
  destruct (Ascii.eqb_spec c " ") as [-> | Hs]; cbn [orb];
    [repeat split; discriminate |].
  destruct (Ascii.eqb_spec c "-") as [-> | Hh]; cbn [orb];
    [repeat split; discriminate |].
  destruct (Ascii.eqb_spec c ".") as [-> | Hd]; cbn [orb];
    [repeat split; discriminate |].
  now repeat split.
Qed.

(** X11: the font identifier is the font name with every space, hyphen and
    dot turned into an underscore, position by position and nothing else
    changed: the three replacements in a row act as one pass.  It has the
    length of the name, holds no space, hyphen or dot, and is its own
    identifier. *)
Theorem font_id_of_is_one_pass (font_name : string) :
  (forall i, String.get i (font_id_of font_name) =
             option_map id_char (String.get i font_name)) /\
  length (font_id_of font_name) = length font_name /\
  (forall i c, String.get i (font_id_of font_name) = Some c ->
               c <> " "%char /\ c <> "-"%char /\ c <> "."%char) /\
  font_id_of (font_id_of font_name) = font_id_of font_name.
Proof.
  induction font_name as [| c font_name (IHget & IHlen & IHclean & IHidem)].
  - split; [intros [| i]; reflexivity |]. split; [reflexivity |].
    split; [intros [| i] c; discriminate | reflexivity].
  - rewrite !font_id_of_cons. split; [| split; [| split]].
    + intros [| i]; [reflexivity | apply IHget].
    + cbn [length]. now rewrite IHlen.
    + intros [| i] c' Hget; cbn [String.get] in Hget.
      * injection Hget as <-. apply id_char_clean.
      * exact (IHclean i c' Hget).
    + now rewrite id_char_idempotent, IHidem.
Qed.

End FontIds.

(** Two font names with one identifier. *)
Example font_ids_collide :
  font_id_of "ESRI Geology-1" = "ESRI_Geology_1" /\
  font_id_of "ESRI.Geology 1" = "ESRI_Geology_1".
Proof. now split. Qed.

(** ** The layout of the grid *)

Section Layout.

Lemma inject_Z_bounds (z lo hi : Z) :
  lo <= z <= hi -> (inject_Z lo <= inject_Z z <= inject_Z hi)%Q.
Proof. intros [Hlo Hhi]. split; now rewrite <- Zle_Qle. Qed.


Lemma landscape_letter_size :
  page_width = (11 * inch)%Q /\ page_height = (8.5 * inch)%Q.
Proof. split; reflexivity. Qed.


(** X4: the grid fits the page.  The border of every cell of either grid
    lies between the left and right margins, above the bottom margin and
    below the baseline of the legend: sixteen columns and fourteen rows of
    half-inch cells fit on the landscape letter page under the header. *)
Theorem grid_fits_the_page (start_code end_code code : Z) :
  In code (grid_codes start_code end_code) ->
  let x := cell_x (cell_col start_code code) in
  let y := cell_y (cell_row start_code code) in
  (margin <= x /\ x + cell_size <= page_width - margin /\
   margin <= y - cell_size /\ y < page_height - 0.75 * inch)%Q.
Proof.
  intros Hin. apply grid_codes_cell in Hin as [Hrow Hcol]. cbv zeta.
  assert (Hr : 0 <= cell_row start_code code <= 13) by lia.
  assert (Hc : 0 <= cell_col start_code code <= 15) by lia.
  apply inject_Z_bounds in Hr. apply inject_Z_bounds in Hc.
  clear Hrow Hcol.
  destruct landscape_letter_size as [Hwidth Hheight].
  unfold cell_x, cell_y, x_start, y_start. rewrite Hwidth, Hheight.
  unfold margin, cell_size, inch.
  set (r := inject_Z (cell_row start_code code)) in *.
  set (c := inject_Z (cell_col start_code code)) in *.
  change (inject_Z 0) with 0%Q in *.
  change (inject_Z 13) with 13%Q in *.
  change (inject_Z 15) with 15%Q in *.
  repeat split; lra.
Qed.


End Layout.

Lemma grid_fits_the_page_witness :
  In 255 (grid_codes 32 255) /\
  (margin <= cell_x (cell_col 32 255))%Q.
Proof.
  split; [apply grid_codes_In; change (rows * cols) with 224; lia |].
  exact (proj1 (grid_fits_the_page 32 255 255
                  ltac:(apply grid_codes_In; change (rows * cols) with 224;
                        lia))).
Defined.


(** ** Counting the cells of a grid *)

Section CellTallies.
Context {backend : Backend}.

Lemma chr_negative (code : Z) :
  code < 0 -> Py.chr code = Raise (ValueError code).
Proof.
  intros Hneg. unfold Py.chr.
  replace (0 <=? code) with false by (symmetry; apply Z.leb_gt; lia).
  reflexivity.
Qed.

Lemma key_label_negative (code : Z) :
  code < 0 -> key_label code = Raise (ValueError code).
Proof.
  intros Hneg. unfold key_label, special_chars. cbn [lookup_code].
  repeat match goal with
    | |- context [code =? ?k] =>
        replace (code =? k) with false by (symmetry; apply Z.eqb_neq; lia)
    end.
  replace (48 <=? code) with false by (symmetry; apply Z.leb_gt; lia).
  replace (65 <=? code) with false by (symmetry; apply Z.leb_gt; lia).
  replace (97 <=? code) with false by (symmetry; apply Z.leb_gt; lia).
  cbn [andb].
  replace (code <? 127) with true by (symmetry; apply Z.ltb_lt; lia).
  now apply chr_negative.
Qed.

Ltac tally_call := step; step; [| cbn [app]; refused].

Lemma glyph_tally (font_id : string) (code : Z) (x y : Q) (n : Z) (w : world) :
  runs (draw_glyph font_id code x y n) w
    (fun l _ r =>
       cells_drawn l = 0%nat /\
       match r with
       | Ok m => n <= m <= n + 1 /\ (code < 0 -> m = n)
       | Raise e => standard_failure e
       end).
Proof.
  eapply runs_weaken; [apply draw_glyph_spec |].
  intros l w' r _ (_ & _ & Hcells & Hr). split; [exact Hcells |].
  destruct r as [m | e]; [| exact Hr].
  destruct Hr as [_ [[-> [char [Hchr _]]] | [-> _]]].
  - split; [lia |]. intros Hneg. rewrite chr_negative in Hchr by exact Hneg.
    discriminate.
  - split; [lia | reflexivity].
Qed.

Lemma extended_cell_tally (font_id : string) (start_code code n : Z)
  (w : world) :
  runs (extended_cell font_id start_code code n) w
    (fun l _ r => cell_tally false start_code code n l r).
Proof.
  unfold extended_cell.
  destruct (Z.leb_spec rows (cell_row start_code code)) as [Hbreak | Hrow].
  { step. now repeat split. }
  set (x := cell_x (cell_col start_code code)).
  set (y := cell_y (cell_row start_code code)).
  do 8 tally_call.
  step. eapply runs_weaken; [apply glyph_tally |].
  intros l1 w1 [m | e] _ (Hcells & Hr); [| now left].
  destruct Hr as [Hm Hneg].
  step. step; [| now refused].
  step. cbn [app]. split; [exact Hrow |]. split.
  { unfold cells_drawn in *. cbn [filter is_rect List.length app].
    rewrite !filter_app, !length_app, Hcells. reflexivity. }
  split; [exact Hm |]. split; [exact Hneg | discriminate].
Qed.

Lemma character_cell_tally (font_id : string) (start_code code n : Z)
  (w : world) :
  runs (character_cell font_id start_code code n) w
    (fun l _ r => cell_tally true start_code code n l r).
Proof.
  unfold character_cell.
  destruct (Z.leb_spec rows (cell_row start_code code)) as [Hbreak | Hrow].
  { step. now repeat split. }
  set (x := cell_x (cell_col start_code code)).
  set (y := cell_y (cell_row start_code code)).
  do 2 tally_call.
  step. step.
  destruct (key_label code) as [label | e] eqn:Hlabel.
  2: { cbn [app]. right. apply key_label_raise in Hlabel as [-> Hneg].
       now repeat split. }
  assert (Hcode : 0 <= code).
  { destruct (Z.lt_ge_cases code 0) as [Hneg | Hge]; [| exact Hge].
    rewrite key_label_negative in Hlabel by exact Hneg. discriminate. }
  do 7 tally_call.
  step. eapply runs_weaken; [apply glyph_tally |].
  intros l1 w1 [m | e] _ (Hcells & Hr); [| now left].
  destruct Hr as [Hm Hneg].
  step. step; [| now refused].
  step. cbn [app]. split; [exact Hrow |]. split.
  { unfold cells_drawn in *. cbn [filter is_rect List.length app].
    rewrite !filter_app, !length_app, Hcells. reflexivity. }
  split; [exact Hm |]. split; [exact Hneg | intros _; exact Hcode].
Qed.


Lemma for_each_tally (labelled : bool) (start_code : Z)
  (body : Z -> Z -> M (flow Z)) :
  (forall code n w,
      runs (body code n) w
        (fun l _ r => cell_tally labelled start_code code n l r)) ->
  forall codes n w,
    runs (for_each codes body n) w
      (fun l _ r => grid_tally labelled start_code codes n l r).
Proof.
  intros Hbody codes.
  induction codes as [| code rest IH]; intros n w; cbn [for_each].
  - step. cbn. split; [lia |]. split; [reflexivity |].
    intros _. split; [reflexivity | constructor].
  - step. eapply runs_weaken; [apply Hbody |].
    intros l1 w1 [[m | m] | e] _ Hcell.
    + destruct Hcell as (Hrow & Hcells & Hm & Hneg & Hlab).
      eapply runs_weaken; [apply IH |].
      intros l2 w2 [m' | e] _ Hgrid.
      * destruct Hgrid as (Hm' & Hneg' & Hfull).
        cbn [grid_tally List.length]. split; [lia |]. split.
        { intros Hall. inversion Hall; subst.
          rewrite Hneg' by assumption. now apply Hneg. }
        intros Hall. inversion Hall; subst.
        destruct (Hfull ltac:(assumption)) as [Hc Hl]. split.
        { rewrite cells_drawn_app, Hcells, Hc. reflexivity. }
        intros Hlabelled. constructor; [now apply Hlab | now apply Hl].
      * destruct Hgrid as [Hs | (Hlabelled & c & Hc & Hneg' & He)];
          [now left | right].
        split; [exact Hlabelled |]. exists c. split; [now right | now split].
    + destruct Hcell as (Hbreak & -> & ->).
      step. cbn [grid_tally List.length app]. split; [lia |].
      split; [reflexivity |].
      intros Hall. inversion Hall; subst. lia.
    + destruct Hcell as [Hs | (Hlabelled & Hneg & He & _)]; [now left | right].
      split; [exact Hlabelled |]. exists code. split; [now left | now split].
Qed.

Lemma grid_codes_rows (start_code end_code : Z) :
  Forall (fun c => cell_row start_code c < rows)
    (grid_codes start_code end_code).
Proof.
  apply Forall_forall. intros code Hin.
  apply grid_codes_cell in Hin. change rows with 14. lia.
Qed.

Lemma grid_codes_count (start_code end_code : Z) :
  Z.of_nat (List.length (grid_codes start_code end_code)) =
  Z.min (Z.max 0 (end_code - start_code + 1)) 224.
Proof.
  unfold grid_codes. rewrite range_length. change (rows * cols) with 224. lia.
Qed.

(** X1: with a backend that carries out the standard requests, the basic
    grid called on a range that starts at a non-negative code ends
    normally and draws every cell of its range: the number of cell borders
    is the width of the range, or 224 when the range is wider, or 0 when
    it is empty; the count returned lies between 0 and that number. *)
Theorem basic_grid_draws_every_cell (font_id font_name : string)
  (start_code end_code : Z) (w : world)
  (Hstd : forall history o,
      standard_request o = true -> accepts history o = true)
  (Hstart : 0 <= start_code) :
  exists w' n requests,
    draw_character_grid font_id font_name start_code end_code w = (w', Ok n) /\
    calls w' = (calls w ++ requests)%list /\
    Z.of_nat (cells_drawn requests) =
      Z.min (Z.max 0 (end_code - start_code + 1)) 224 /\
    0 <= n <= Z.of_nat (cells_drawn requests).
Proof.
  pose proof (grid_codes_rows start_code end_code) as Hrows.
  pose proof (grid_codes_count start_code end_code) as Hcount.
  assert (H : runs (draw_character_grid font_id font_name start_code end_code)
                w (fun l _ r =>
                     grid_tally true start_code
                       (grid_codes start_code end_code) 0 l r))
    by (apply for_each_tally; apply character_cell_tally).
  destruct H as [l [Hc Hr]].
  destruct (draw_character_grid font_id font_name start_code end_code w)
    as [w' [n | e]]; cbn [fst snd] in *.
  - destruct Hr as (Hn & _ & Hfull). destruct (Hfull Hrows) as [Hcells _].
    exists w', n, l. rewrite Hcells, Hcount in *. repeat split; try lia.
    exact Hc.
  - exfalso. destruct Hr as [Hs | (_ & c & Hin & Hneg & _)].
    + exact (standard_failure_absurd e Hstd Hs).
    + apply grid_codes_In in Hin. lia.
Qed.

(** X2: with a backend that carries out the standard requests, the
    extended grid ends normally on every range, negative codes included,
    and draws every cell of it: as many cell borders as the range is wide,
    224 at most; the count returned lies between 0 and that number, and is
    0 when the whole range is negative, every such cell getting the
    dash. *)
Theorem extended_grid_draws_every_cell (font_id font_name : string)
  (start_code end_code : Z) (w : world)
  (Hstd : forall history o,
      standard_request o = true -> accepts history o = true) :
  exists w' n requests,
    draw_extended_grid font_id font_name start_code end_code w = (w', Ok n) /\
    calls w' = (calls w ++ requests)%list /\
    Z.of_nat (cells_drawn requests) =
      Z.min (Z.max 0 (end_code - start_code + 1)) 224 /\
    0 <= n <= Z.of_nat (cells_drawn requests) /\
    (end_code < 0 -> n = 0).
Proof.
  pose proof (grid_codes_rows start_code end_code) as Hrows.
  pose proof (grid_codes_count start_code end_code) as Hcount.
  assert (H : runs (draw_extended_grid font_id font_name start_code end_code)
                w (fun l _ r =>
                     grid_tally false start_code
                       (grid_codes start_code end_code) 0 l r))
    by (apply for_each_tally; apply extended_cell_tally).
  destruct H as [l [Hc Hr]].
  destruct (draw_extended_grid font_id font_name start_code end_code w)
    as [w' [n | e]]; cbn [fst snd] in *.
  - destruct Hr as (Hn & Hneg & Hfull). destruct (Hfull Hrows) as [Hcells _].
    exists w', n, l. rewrite Hcells, Hcount in *.
    split; [reflexivity |]. split; [exact Hc |]. split; [reflexivity |].
    split; [lia |]. intros Hend. apply Hneg.
    apply Forall_forall. intros c Hin. apply grid_codes_In in Hin. lia.
  - exfalso. destruct Hr as [Hs | (Hlab & _)].
    + exact (standard_failure_absurd e Hstd Hs).
    + discriminate.
Qed.


End CellTallies.

Lemma basic_grid_draws_every_cell_witness :
  (forall history o,
      standard_request o = true ->
      accepts (Backend := only_letter_A) history o = true) /\
  0 <= 250 /\
  exists w' n requests,
    draw_character_grid (backend := only_letter_A) "F" "F" 250 255 blank_world
      = (w', Ok n) /\
    calls w' = (calls blank_world ++ requests)%list /\
    Z.of_nat (cells_drawn requests) = 6 /\
    0 <= n <= Z.of_nat (cells_drawn requests).
Proof.
  split; [exact only_letter_A_standard |]. split; [discriminate |].
  exact (basic_grid_draws_every_cell (backend := only_letter_A) "F" "F" 250 255
           blank_world only_letter_A_standard ltac:(discriminate)).
Defined.

Lemma extended_grid_draws_every_cell_witness :
  (forall history o,
      standard_request o = true ->
      accepts (Backend := only_letter_A) history o = true) /\
  exists w' n requests,
    draw_extended_grid (backend := only_letter_A) "F" "F" (-3) 70 blank_world
      = (w', Ok n) /\
    calls w' = (calls blank_world ++ requests)%list /\
    Z.of_nat (cells_drawn requests) = 74 /\
    0 <= n <= Z.of_nat (cells_drawn requests) /\
    (70 < 0 -> n = 0).
Proof.
  split; [exact only_letter_A_standard |].
  exact (extended_grid_draws_every_cell (backend := only_letter_A) "F" "F"
           (-3) 70 blank_world only_letter_A_standard).
Defined.


(** ** Whole pages, the registry and the ways through the script *)

Section PageTallies.
Context {backend : Backend}.








End PageTallies.

Section Catalog.
Context {backend : Backend}.





Section Standard.

Hypothesis Hstd :
  forall history o, standard_request o = true -> accepts history o = true.




End Standard.










End Catalog.

Section Outcomes.
Context {backend : Backend} {host : Host}.



End Outcomes.

Section Runs.
Context {backend : Backend} {host : Host}.




End Runs.


Section Dependencies.
Context {backend : Backend} {host : Host}.

(** X10: the dependency check.  The packages are there exactly when
    reportlab can be imported or, failing that, pip installs it; when
    neither works the script ends with status 1 at once: no directory is
    made, nothing is registered, printed about a font or asked of the
    backend, the state being the one it started from. *)
Theorem missing_package_stops_the_script (w : world) :
  all_installed = (importable "reportlab" || pip_installs "reportlab")%bool /\
  (importable "reportlab" = false -> pip_installs "reportlab" = false ->
   main w = (w, Ok 1)).
Proof.
  assert (Hall : all_installed
                 = (importable "reportlab" || pip_installs "reportlab")%bool).
  { unfold all_installed, required_packages, check_and_install_package.
    cbn [fold_left fst snd].
    destruct (importable "reportlab"); [reflexivity |].
    now destruct (pip_installs "reportlab"). }
  split; [exact Hall |].
  intros Himport Hpip. unfold main. rewrite Hall, Himport, Hpip. reflexivity.
Qed.

End Dependencies.



(** ** What the scan finds *)

Section Found.
Context {host : Host}.

Lemma dict_get_In (name path : string) (d : Dict.t) :
  Dict.get name d = Some path -> In (name, path) d.
Proof.
  induction d as [| [k v] d IH]; cbn [Dict.get]; [discriminate |].
  destruct (String.eqb_spec name k) as [-> | Hne].
  - intros H. injection H as <-. now left.
  - intros H. right. now apply IH.
Qed.

Lemma dict_In_get (name path : string) (d : Dict.t) :
  In (name, path) d -> Dict.get name d <> None.
Proof.
  intros Hin. apply dict_get_keys. unfold Dict.keys.
  apply in_map_iff. now exists (name, path).
Qed.

(** A candidate is a font file met by the walk of a directory that
    exists. *)
Lemma In_candidates (font_dirs : list string) (name path : string) :
  In (name, path) (candidates font_dirs) <->
  exists font_dir n root dirs files file,
    In font_dir font_dirs /\ stat font_dir = Some n /\
    In (root, dirs, files) (walk font_dir n) /\
    In file files /\ is_font_file file = true /\
    name = fst (splitext file) /\ path = path_join root file.
Proof.
  unfold candidates, candidates_of_walk. rewrite in_flat_map. split.
  - intros (font_dir & Hdir & Hin).
    destruct (stat font_dir) as [n |] eqn:Hstat; [| contradiction].
    apply in_flat_map in Hin as ([[root dirs] files] & Hwalk & Hin).
    apply in_map_iff in Hin as (file & Heq & Hfile).
    apply filter_In in Hfile as [Hfile Hfont].
    injection Heq as <- <-.
    exists font_dir, n, root, dirs, files, file. now repeat split.
  - intros (font_dir & n & root & dirs & files & file & Hdir & Hstat & Hwalk
            & Hfile & Hfont & -> & ->).
    exists font_dir. split; [exact Hdir |]. rewrite Hstat.
    apply in_flat_map. exists (root, dirs, files). split; [exact Hwalk |].
    apply in_map_iff. exists file. split; [reflexivity |].
    apply filter_In. now split.
Qed.

Lemma add_candidates_nil (cands : list (string * string)) :
  fold_left add_candidate cands [] = [] <-> cands = [].
Proof.
  split; [| now intros ->].
  destruct cands as [| [n p] cands]; [reflexivity | intros Hnil; exfalso].
  pose proof (add_candidates_get ((n, p) :: cands) [] n) as Hget.
  rewrite Hnil in Hget. cbn [Dict.get] in Hget.
  rewrite String.eqb_refl in Hget. discriminate.
Qed.

(** Candidates whose names the dictionary has change nothing. *)
Lemma add_known_candidates (cands : list (string * string)) :
  forall font_dict,
    (forall c, In c cands -> Dict.get (fst c) font_dict <> None) ->
    fold_left add_candidate cands font_dict = font_dict.
Proof.
  induction cands as [| c cands IH]; intros font_dict Hknown;
    cbn [fold_left]; [reflexivity |].
  assert (Hc : add_candidate font_dict c = font_dict).
  { unfold add_candidate, Dict.mem.
    pose proof (Hknown c (or_introl eq_refl)) as Hget.
    destruct (Dict.get (fst c) font_dict); [reflexivity | congruence]. }
  rewrite Hc. apply IH. intros c' Hin. apply Hknown. now right.
Qed.

Lemma scan_dirs_found (font_dirs : list string) :
  forall (font_dict : Dict.t) (found : bool),
    snd (fold_left
           (fun state font_dir =>
              match stat font_dir with
              | Some n => (scan_walk (fst state) (walk font_dir n), true)
              | None => state
              end) font_dirs (font_dict, found)) =
    (found ||
     existsb (fun font_dir =>
                match stat font_dir with Some _ => true | None => false end)
       font_dirs)%bool.
Proof.
  induction font_dirs as [| font_dir font_dirs IH]; intros font_dict found;
    cbn [fold_left existsb].
  - now rewrite orb_false_r.
  - destruct (stat font_dir) as [n |]; rewrite IH; cbn [orb].
    + now rewrite orb_true_r.
    + reflexivity.
Qed.

Lemma candidates_none (font_dirs : list string) :
  existsb (fun font_dir =>
             match stat font_dir with Some _ => true | None => false end)
    font_dirs = false ->
  candidates font_dirs = [].
Proof.
  unfold candidates.
  induction font_dirs as [| font_dir font_dirs IH]; cbn [existsb flat_map];
    [reflexivity |].
  destruct (stat font_dir); cbn [orb]; [discriminate |].
  intros H. now rewrite IH.
Qed.

(** X15: what the scan collects are the font files and nothing else.  Every
    entry of the dictionary is a file met by the walk of a listed directory
    that exists, selected as a font file, under the name and the path the
    loop computes for it; and every such file has its name in the
    dictionary (with its own path or with that of an earlier file of the
    same name). *)
Theorem entries_are_the_font_files (font_dirs : list string) :
  let font_dict := fst (scan_dirs font_dirs) in
  (forall name path,
      Dict.get name font_dict = Some path ->
      exists font_dir n root dirs files file,
        In font_dir font_dirs /\ stat font_dir = Some n /\
        In (root, dirs, files) (walk font_dir n) /\
        In file files /\ is_font_file file = true /\
        name = fst (splitext file) /\ path = path_join root file) /\
  (forall font_dir n root dirs files file,
      In font_dir font_dirs -> stat font_dir = Some n ->
      In (root, dirs, files) (walk font_dir n) ->
      In file files -> is_font_file file = true ->
      In (fst (splitext file)) (fonts_of font_dict)).
Proof.
  cbv zeta. rewrite scan_dirs_candidates. split.
  - intros name path Hget. rewrite add_candidates_get in Hget.
    cbn [Dict.get] in Hget. apply dict_get_In in Hget.
    now apply In_candidates.
  - intros font_dir n root dirs files file Hdir Hstat Hwalk Hfile Hfont.
    apply (Permutation_in _ (Permutation_sym (sorted_perm _))).
    apply dict_get_keys. rewrite add_candidates_get. cbn [Dict.get].
    apply (dict_In_get _ (path_join root file)). apply In_candidates.
    exists font_dir, n, root, dirs, files, file. now repeat split.
Qed.

(** X16: the flag [fonts_found] tells whether one of the listed directories
    exists; when none does the dictionary is empty; and the dictionary is
    empty exactly when the existing directories hold no font file. *)
Theorem no_directory_no_font (font_dirs : list string) :
  snd (scan_dirs font_dirs) =
    existsb (fun font_dir =>
               match stat font_dir with Some _ => true | None => false end)
      font_dirs /\
  (snd (scan_dirs font_dirs) = false -> fst (scan_dirs font_dirs) = []) /\
  (fst (scan_dirs font_dirs) = [] <-> candidates font_dirs = []).
Proof.
  assert (Hsnd : snd (scan_dirs font_dirs) =
                 existsb (fun font_dir =>
                            match stat font_dir with
                            | Some _ => true
                            | None => false
                            end) font_dirs)
    by (unfold scan_dirs; now rewrite scan_dirs_found).
  split; [exact Hsnd |]. rewrite scan_dirs_candidates. split.
  - rewrite Hsnd. intros Hnone. now rewrite candidates_none.
  - apply add_candidates_nil.
Qed.

(** X17: listing a directory again adds nothing.  When every directory of
    [again] is already in [font_dirs], scanning [font_dirs] followed by
    [again] gives the dictionary of [font_dirs] alone, entries and order. *)
Theorem listing_a_directory_again_adds_nothing
  (font_dirs again : list string) :
  incl again font_dirs ->
  fst (scan_dirs (font_dirs ++ again)) = fst (scan_dirs font_dirs).
Proof.
  intros Hincl. rewrite !scan_dirs_candidates.
  unfold candidates at 1. rewrite flat_map_app, fold_left_app.
  fold (candidates font_dirs). fold (candidates again).
  apply add_known_candidates. intros [name path] Hin. cbn [fst].
  rewrite add_candidates_get. cbn [Dict.get].
  apply (dict_In_get _ path).
  apply In_candidates in Hin
    as (font_dir & n & root & dirs & files & file & Hdir & Hrest).
  apply In_candidates. exists font_dir, n, root, dirs, files, file.
  split; [now apply Hincl | exact Hrest].
Qed.

End Found.

Lemma listing_a_directory_again_adds_nothing_witness :
  incl ["C:\Program Files\ArcGIS\Pro\Resources\Fonts"]
    ["C:\Program Files\ArcGIS\Pro\Resources\Fonts";
     "C:\Program Files (x86)\ArcGIS\Desktop10.8\Fonts"] /\
  fst (scan_dirs (host := pro_host) (arcgis_font_dirs (host := pro_host))) =
  fst (scan_dirs (host := pro_host)
         ["C:\Program Files\ArcGIS\Pro\Resources\Fonts";
          "C:\Program Files (x86)\ArcGIS\Desktop10.8\Fonts"]).
Proof.
  assert (Hincl : incl ["C:\Program Files\ArcGIS\Pro\Resources\Fonts"]
                    ["C:\Program Files\ArcGIS\Pro\Resources\Fonts";
                     "C:\Program Files (x86)\ArcGIS\Desktop10.8\Fonts"])
    by (intros dir [<- | []]; now left).
  split; [exact Hincl |].
  exact (listing_a_directory_again_adds_nothing (host := pro_host)
           ["C:\Program Files\ArcGIS\Pro\Resources\Fonts";
            "C:\Program Files (x86)\ArcGIS\Desktop10.8\Fonts"]
           ["C:\Program Files\ArcGIS\Pro\Resources\Fonts"] Hincl).
Defined.

Lemma missing_package_stops_the_script_witness :
  main (backend := no_page_break) (host := no_pip_host) blank_world =
    (blank_world, Ok 1).
Proof.
  exact (proj2 (missing_package_stops_the_script (backend := no_page_break)
                  (host := no_pip_host) blank_world) eq_refl eq_refl).
Defined.
